(** * FinAI paper-trading ledger: order execution, valuation and margin monitor

    A shallow embedding of the order executors
    ([services/order_executor_astock.py], [services/mt5_order_executor.py],
    [services/order_executor_leverage.py]), of the position valuation
    ([services/asset_calculator.py]) and of the margin monitor
    ([services/scheduler.py]) together with the properties proved about them.
    The order matching the margin monitor calls
    ([services/order_matching.py]) is not part of the sources at hand; module
    [Matching] follows its written specification.

    Modelling conventions.
    - The Python code computes with [Decimal] and stores [float]s.  Both are
      read as exact rationals ([Q]); [float(...)] and [Decimal(str(...))] are
      the identity.  Equality of amounts is [Qeq] ([==]).
    - The SQLAlchemy session is an explicit state ([Session]) threaded through
      an error-and-state monad ([Exec]).  A [raise] leaves the session as it
      was mutated so far; nothing has been committed at that point, because
      the only [db.commit()] is the last statement of every executor.
    - The clock ([datetime.now]) and the price oracle ([get_last_price]) are
      arguments of the functions that consult them. *)

From Stdlib Require Import QArith Qround Lqa ZArith List String Bool Lia.
Import ListNotations.
Open Scope string_scope.
Open Scope list_scope.
Open Scope Q_scope.

(** ** Numbers *)

(** [a < b] on [Decimal]s, as a boolean. *)
Definition Qltb (a b : Q) : bool := negb (Qle_bool b a).

(** Python's [max(a, b)]: the first argument unless the second is larger. *)
Definition pymax (a b : Q) : Q := if Qltb a b then b else a.

(** Python's [int(d)] on a [Decimal]: truncation towards zero. *)
Definition py_int (d : Q) : Z := Z.quot (Qnum d) (Zpos (Qden d)).

(** Truth value of an optional float ([if price], [not price]). *)
Definition truthy (p : option Q) : bool :=
  match p with
  | Some v => negb (Qeq_bool v 0)
  | None => false
  end.

(** ** Ledger entities *)

Inductive Side := LONG | SHORT | BUY | SELL | OTHER.

Inductive OrderType := LIMIT | MARKET | OTHER_TYPE.

Inductive Status := PENDING | FILLED | REJECTED | CANCELLED.

Definition Side_eqb (a b : Side) : bool :=
  match a, b with
  | LONG, LONG | SHORT, SHORT | BUY, BUY | SELL, SELL | OTHER, OTHER => true
  | _, _ => false
  end.

Module Account.
Record t := mk {
  id : Z;
  current_cash : Q;
  margin_used : Q;
  maintenance_margin_ratio : Q
}.
Definition set_current_cash (v : Q) (a : t) : t :=
  mk (id a) v (margin_used a) (maintenance_margin_ratio a).
Definition set_margin_used (v : Q) (a : t) : t :=
  mk (id a) (current_cash a) v (maintenance_margin_ratio a).
End Account.

Module Position.
Record t := mk {
  account_id : Z;
  symbol : string;
  name : string;
  market : string;
  quantity : Q;
  available_quantity : Q;
  avg_cost : Q;
  leverage : Z;
  side : option Side;
  accumulated_interest : Q;
  last_interest_time : option Q
}.
Definition set_quantity (v : Q) (p : t) : t :=
  mk (account_id p) (symbol p) (name p) (market p) v (available_quantity p)
     (avg_cost p) (leverage p) (side p) (accumulated_interest p)
     (last_interest_time p).
Definition set_available_quantity (v : Q) (p : t) : t :=
  mk (account_id p) (symbol p) (name p) (market p) (quantity p) v
     (avg_cost p) (leverage p) (side p) (accumulated_interest p)
     (last_interest_time p).
Definition set_avg_cost (v : Q) (p : t) : t :=
  mk (account_id p) (symbol p) (name p) (market p) (quantity p)
     (available_quantity p) v (leverage p) (side p) (accumulated_interest p)
     (last_interest_time p).
Definition set_leverage (v : Z) (p : t) : t :=
  mk (account_id p) (symbol p) (name p) (market p) (quantity p)
     (available_quantity p) (avg_cost p) v (side p) (accumulated_interest p)
     (last_interest_time p).
Definition set_side (v : option Side) (p : t) : t :=
  mk (account_id p) (symbol p) (name p) (market p) (quantity p)
     (available_quantity p) (avg_cost p) (leverage p) v
     (accumulated_interest p) (last_interest_time p).
Definition set_accumulated_interest (v : Q) (p : t) : t :=
  mk (account_id p) (symbol p) (name p) (market p) (quantity p)
     (available_quantity p) (avg_cost p) (leverage p) (side p) v
     (last_interest_time p).
Definition set_last_interest_time (v : option Q) (p : t) : t :=
  mk (account_id p) (symbol p) (name p) (market p) (quantity p)
     (available_quantity p) (avg_cost p) (leverage p) (side p)
     (accumulated_interest p) v.
End Position.

Module Order.
Record t := mk {
  account_id : Z;
  symbol : string;
  name : string;
  market : string;
  side : Side;
  order_type : OrderType;
  price : option Q;
  quantity : Q;
  leverage : Z;
  filled_quantity : Q;
  status : Status
}.
(** [order.filled_quantity = quantity; order.status = "FILLED"] *)
Definition fill (o : t) : t :=
  mk (account_id o) (symbol o) (name o) (market o) (side o) (order_type o)
     (price o) (quantity o) (leverage o) (quantity o) FILLED.
End Order.

Module Trade.
Record t := mk {
  order_id : nat;
  account_id : Z;
  symbol : string;
  market : string;
  side : Side;
  price : Q;
  quantity : Q;
  commission : Q;
  taker_fee : Q;
  interest_charged : Q
}.
End Trade.

(** ** The session and the execution monad *)

(** The rows the session holds.  [account] is the [Account] object handed to
    the executor; a row's primary key is its index in its list (rows are
    appended by [db.add] and never deleted). *)
Record Session := mkSession {
  account : Account.t;
  positions : list Position.t;
  orders : list Order.t;
  trades : list Trade.t
}.

(** One constructor per [raise] site of the executors, plus the two ways the
    price lookup can fail and the [Decimal] division by zero. *)
Inductive error :=
  | InvalidLeverage
  | InvalidLotMultiple
  | QuantityBelowMinimum
  | OracleFailure
  | PriceConversionFailure
  | InsufficientCash
  | InsufficientCashForInterest
  | ConflictingPosition
  | NoPositionToClose
  | SideMismatch
  | ExceedsPositionSize
  | OnlySellSpot
  | InsufficientPosition
  | InvalidSide
  | DivisionFailure.

Inductive result (A : Type) :=
  | Ok (a : A)
  | Raise (e : error).
Arguments Ok {A} a.
Arguments Raise {A} e.

Definition Exec (A : Type) : Type := Session -> result A * Session.

Definition ret {A} (a : A) : Exec A := fun s => (Ok a, s).
Definition raise {A} (e : error) : Exec A := fun s => (Raise e, s).
Definition bind {A B} (c : Exec A) (k : A -> Exec B) : Exec B :=
  fun s => match c s with
           | (Ok a, s') => k a s'
           | (Raise e, s') => (Raise e, s')
           end.
Definition get : Exec Session := fun s => (Ok s, s).
Definition modify (f : Session -> Session) : Exec unit := fun s => (Ok tt, f s).

Notation "x <- c ;; k" := (bind c (fun x => k))
  (at level 61, c at next level, right associativity).
Notation "' pat <- c ;; k" :=
  (bind c (fun x => match x with pat => k end))
  (at level 61, pat pattern, c at next level, right associativity).
Notation "c ;;; k" := (bind c (fun _ => k))
  (at level 61, right associativity).

(** A computation that does not touch the session. *)
Definition lift {A} (r : result A) : Exec A := fun s => (r, s).

(** [if cond: raise e] *)
Definition raise_if (cond : bool) (e : error) : Exec unit :=
  if cond then raise e else ret tt.

Definition set_account (a : Account.t) : Exec unit :=
  modify (fun s => mkSession a (positions s) (orders s) (trades s)).
Definition set_positions (ps : list Position.t) : Exec unit :=
  modify (fun s => mkSession (account s) ps (orders s) (trades s)).
Definition set_orders (os : list Order.t) : Exec unit :=
  modify (fun s => mkSession (account s) (positions s) os (trades s)).

(** [db.add(order); db.flush()]: the row is appended and its key returned. *)
Definition add_order (o : Order.t) : Exec nat :=
  s <- get ;;
  set_orders (orders s ++ [o]) ;;;
  ret (List.length (orders s)).

(** [db.add(trade)] *)
Definition add_trade (t : Trade.t) : Exec unit :=
  modify (fun s => mkSession (account s) (positions s) (orders s) (trades s ++ [t])).

Fixpoint update_nth {A} (n : nat) (f : A -> A) (l : list A) : list A :=
  match l, n with
  | [], _ => []
  | x :: r, O => f x :: r
  | x :: r, S m => x :: update_nth m f r
  end.

(** [order.filled_quantity = quantity; order.status = "FILLED"], on the order
    object created earlier in the same call; the filled order is returned. *)
Definition fill_order (oid : nat) (pending : Order.t) : Exec Order.t :=
  s <- get ;;
  set_orders (update_nth oid Order.fill (orders s)) ;;;
  ret (Order.fill pending).

(** The filter of
    [db.query(Position).filter(account_id == .., symbol == .., market == ..)]. *)
Definition pos_matches (aid : Z) (sym mkt : string) (p : Position.t) : bool :=
  (Position.account_id p =? aid)%Z &&
  String.eqb (Position.symbol p) sym &&
  String.eqb (Position.market p) mkt.

(** [.first()]: the key (index) of the first matching row, with the row. *)
Fixpoint first_position (aid : Z) (sym mkt : string) (ps : list Position.t)
  : option (nat * Position.t) :=
  match ps with
  | [] => None
  | p :: r =>
      if pos_matches aid sym mkt p then Some (O, p)
      else match first_position aid sym mkt r with
           | Some (i, q) => Some (S i, q)
           | None => None
           end
  end.

Definition query_position (sym mkt : string) : Exec (option (nat * Position.t)) :=
  s <- get ;;
  ret (first_position (Account.id (account s)) sym mkt (positions s)).

(** Assignment to attributes of the position object with key [i]. *)
Definition update_position (i : nat) (f : Position.t -> Position.t) : Exec unit :=
  s <- get ;;
  set_positions (update_nth i f (positions s)).

(** [db.add(pos); db.flush()] *)
Definition add_position (p : Position.t) : Exec nat :=
  s <- get ;;
  set_positions (positions s ++ [p]) ;;;
  ret (List.length (positions s)).

(** ** The price oracle *)

(** What [get_last_price(symbol, market)] can do: raise, return [None], or
    return a float (which nothing prevents from being zero). *)
Inductive quote :=
  | QuoteRaises
  | QuoteNone
  | QuotePrice (p : Q).

Definition Oracle := string -> string -> quote.

(** [Decimal(str(get_last_price(symbol, market)))]: an exception of the
    oracle propagates, and [Decimal("None")] raises. *)
Definition decimal_of_quote (q : quote) : result Q :=
  match q with
  | QuoteRaises => Raise OracleFailure
  | QuoteNone => Raise PriceConversionFailure
  | QuotePrice p => Ok p
  end.


(** [a / b] on [Decimal]s; a zero divisor raises. *)
Definition decimal_div (a b : Q) : Exec Q :=
  if Qeq_bool b 0 then raise DivisionFailure else ret (a / b).

(** Column defaults of a freshly constructed [Position] row: no side, no
    accrued interest, no interest timestamp. *)
Definition new_position (aid : Z) (sym nm mkt : string)
    (qty avail cost : Q) (lev : Z) : Position.t :=
  Position.mk aid sym nm mkt qty avail cost lev None 0 None.

(** ** A-share executor ([services/order_executor_astock.py]) *)

Module AStock.

Definition ASTOCK_MIN_COMMISSION : Q := 5.
Definition ASTOCK_COMMISSION_RATE : Q := 0.0003.
Definition ASTOCK_STAMP_TAX_RATE : Q := 0.001.
Definition ASTOCK_MIN_ORDER_QUANTITY : Z := 100.
Definition ASTOCK_LOT_SIZE : Z := 100.

(** Returns [(commission, stamp_tax)]. *)
Definition _calc_astock_fee (notional : Q) (is_sell : bool) : Q * Q :=
  let commission :=
    pymax (notional * ASTOCK_COMMISSION_RATE) ASTOCK_MIN_COMMISSION in
  let stamp_tax :=
    if is_sell then notional * ASTOCK_STAMP_TAX_RATE else 0 in
  (commission, stamp_tax).

(** [if order_type == "MARKET" or not price: ... get_last_price ...
     else: Decimal(str(price))] *)
Definition exec_price_of (oracle : Oracle) (symbol : string)
    (order_type : OrderType) (price : option Q) : result Q :=
  match order_type, price with
  | MARKET, _ => decimal_of_quote (oracle symbol "ASTOCK")
  | _, Some v =>
      if truthy price then Ok v
      else decimal_of_quote (oracle symbol "ASTOCK")
  | _, None => decimal_of_quote (oracle symbol "ASTOCK")
  end.

(** The [BUY] branch: cash check, cash deduction, position upsert. *)
Definition execute_buy (symbol name : string) (exec_price notional total_fee : Q)
    (quantity : Z) : Exec unit :=
  let total_cost := notional + total_fee in
  s <- get ;;
  let available_cash := Account.current_cash (account s) in
  raise_if (Qltb available_cash total_cost) InsufficientCash ;;;
  set_account (Account.set_current_cash (available_cash - total_cost) (account s)) ;;;
  pos <- query_position symbol "ASTOCK" ;;
  match pos with
  | Some (i, p) =>
      let old_notional := Position.quantity p * Position.avg_cost p in
      let new_qty := Position.quantity p + inject_Z quantity in
      new_cost <- decimal_div (old_notional + notional) new_qty ;;
      update_position i (fun p =>
        Position.set_avg_cost new_cost
          (Position.set_available_quantity new_qty
             (Position.set_quantity new_qty p)))
  | None =>
      _ <- add_position
             (new_position (Account.id (account s)) symbol name "ASTOCK"
                (inject_Z quantity) (inject_Z quantity) exec_price 1) ;;
      ret tt
  end.

(** The [SELL] branch: position check, cash gain, position decrement. *)
Definition execute_sell (symbol : string) (notional total_fee : Q)
    (quantity : Z) : Exec unit :=
  pos <- query_position symbol "ASTOCK" ;;
  match pos with
  | None => raise InsufficientPosition
  | Some (i, p) =>
      raise_if (Qltb (Position.available_quantity p) (inject_Z quantity))
               InsufficientPosition ;;;
      let cash_gain := notional - total_fee in
      s <- get ;;
      set_account (Account.set_current_cash
                     (Account.current_cash (account s) + cash_gain) (account s)) ;;;
      update_position i (fun p =>
        Position.set_available_quantity
          (Position.available_quantity p - inject_Z quantity)
          (Position.set_quantity (Position.quantity p - inject_Z quantity) p))
  end.

(** [use_ths] only triggers a best-effort call to the THS terminal inside a
    [try/except] that swallows every failure; it never touches the ledger,
    so it does not appear in the body. *)
Definition place_and_execute_astock (oracle : Oracle) (symbol name : string)
    (side : Side) (order_type : OrderType) (price : option Q)
    (quantity : Z) (use_ths : bool) : Exec Order.t :=
  raise_if (negb (quantity mod ASTOCK_LOT_SIZE =? 0)%Z) InvalidLotMultiple ;;;
  raise_if (quantity <? ASTOCK_MIN_ORDER_QUANTITY)%Z QuantityBelowMinimum ;;;
  exec_price <- lift (exec_price_of oracle symbol order_type price) ;;
  let notional := exec_price * inject_Z quantity in
  let is_sell := Side_eqb side SELL in
  let '(commission, stamp_tax) := _calc_astock_fee notional is_sell in
  let total_fee := commission + stamp_tax in
  s <- get ;;
  let order :=
    Order.mk (Account.id (account s)) symbol name "ASTOCK" side order_type
      (Some exec_price) (inject_Z quantity) 1 0 PENDING in
  oid <- add_order order ;;
  match side with
  | BUY => execute_buy symbol name exec_price notional total_fee quantity
  | SELL => execute_sell symbol notional total_fee quantity
  | _ => raise InvalidSide
  end ;;;
  add_trade (Trade.mk oid (Account.id (account s)) symbol "ASTOCK" side
               exec_price (inject_Z quantity) commission stamp_tax 0) ;;;
  fill_order oid order.

End AStock.

(** ** MT5 A-share executor ([services/mt5_order_executor.py]) *)

Module MT5.

Definition CN_MIN_ORDER_QUANTITY : Z := 100.
Definition CN_COMMISSION_RATE : Q := 0.0003.
Definition CN_MIN_COMMISSION : Q := 5.
Definition CN_STAMP_TAX_RATE : Q := 0.001.
Definition CN_TRANSFER_FEE_RATE : Q := 0.00002.

Definition _calc_cn_fee (quantity : Z) (price : Q) (is_sell : bool) : Q :=
  let notional := inject_Z quantity * price in
  let commission := pymax (notional * CN_COMMISSION_RATE) CN_MIN_COMMISSION in
  let stamp_tax := if is_sell then notional * CN_STAMP_TAX_RATE else 0 in
  let transfer_fee := notional * CN_TRANSFER_FEE_RATE in
  commission + stamp_tax + transfer_fee.

(** [Decimal(str(get_last_price(symbol) or price))]: a falsy quote ([None]
    or zero) falls back to the caller's price, and [Decimal("None")]
    raises. *)
Definition quote_or_price (q : quote) (price : option Q) : result Q :=
  match q with
  | QuoteRaises => Raise OracleFailure
  | QuotePrice p =>
      if Qeq_bool p 0
      then match price with Some v => Ok v | None => Raise PriceConversionFailure end
      else Ok p
  | QuoteNone =>
      match price with Some v => Ok v | None => Raise PriceConversionFailure end
  end.

Definition exec_price_of (oracle : string -> quote) (symbol : string)
    (order_type : OrderType) (price : option Q) : result Q :=
  match order_type, price with
  | MARKET, _ => quote_or_price (oracle symbol) price
  | _, Some v =>
      if truthy price then Ok v else quote_or_price (oracle symbol) price
  | _, None => quote_or_price (oracle symbol) price
  end.

Definition execute_buy (symbol name market : string)
    (exec_price notional total_fee : Q) (quantity : Z) : Exec unit :=
  let total_cost := notional + total_fee in
  s <- get ;;
  let available_cash := Account.current_cash (account s) in
  raise_if (Qltb available_cash total_cost) InsufficientCash ;;;
  set_account (Account.set_current_cash (available_cash - total_cost) (account s)) ;;;
  pos <- query_position symbol market ;;
  match pos with
  | Some (i, p) =>
      let old_notional := Position.quantity p * Position.avg_cost p in
      let new_qty := Position.quantity p + inject_Z quantity in
      new_cost <- decimal_div (old_notional + notional) new_qty ;;
      update_position i (fun p =>
        Position.set_avg_cost new_cost
          (Position.set_available_quantity new_qty
             (Position.set_quantity new_qty p)))
  | None =>
      _ <- add_position
             (new_position (Account.id (account s)) symbol name market
                (inject_Z quantity) (inject_Z quantity) exec_price 1) ;;
      ret tt
  end.

Definition execute_sell (symbol market : string) (notional total_fee : Q)
    (quantity : Z) : Exec unit :=
  pos <- query_position symbol market ;;
  match pos with
  | None => raise InsufficientPosition
  | Some (i, p) =>
      raise_if (Qltb (Position.available_quantity p) (inject_Z quantity))
               InsufficientPosition ;;;
      let cash_gain := notional - total_fee in
      s <- get ;;
      set_account (Account.set_current_cash
                     (Account.current_cash (account s) + cash_gain) (account s)) ;;;
      update_position i (fun p =>
        Position.set_available_quantity
          (Position.available_quantity p - inject_Z quantity)
          (Position.set_quantity (Position.quantity p - inject_Z quantity) p))
  end.

(** As for the THS mirror, the call to the MT5 terminal
    ([use_mt5_platform]) is wrapped in a [try/except] and has no effect on
    the ledger. *)
Definition place_and_execute_mt5_order (oracle : string -> quote)
    (symbol name : string) (side : Side) (order_type : OrderType)
    (price : option Q) (quantity : Z) (use_mt5_platform : bool)
    (market : string) : Exec Order.t :=
  raise_if (negb (quantity mod CN_MIN_ORDER_QUANTITY =? 0)%Z) InvalidLotMultiple ;;;
  exec_price <- lift (exec_price_of oracle symbol order_type price) ;;
  let notional := exec_price * inject_Z quantity in
  let is_sell := Side_eqb side SELL in
  let total_fee := _calc_cn_fee quantity exec_price is_sell in
  s <- get ;;
  let order :=
    Order.mk (Account.id (account s)) symbol name market side order_type
      (Some exec_price) (inject_Z quantity) 1 0 PENDING in
  oid <- add_order order ;;
  match side with
  | BUY => execute_buy symbol name market exec_price notional total_fee quantity
  | SELL => execute_sell symbol market notional total_fee quantity
  | _ => raise InvalidSide
  end ;;;
  add_trade (Trade.mk oid (Account.id (account s)) symbol market side
               exec_price (inject_Z quantity) total_fee 0 0) ;;;
  fill_order oid order.

End MT5.

(** ** Leveraged crypto executor ([services/order_executor_leverage.py]) *)

Module Crypto.

(** The constants the executor imports from [database.models]; their values
    are not fixed here. *)
Record Constants := mkConstants {
  CRYPTO_TAKER_FEE_RATE : Q;
  CRYPTO_INTEREST_RATE_HOURLY : Q;
  CRYPTO_MAX_LEVERAGE : Z;
  CRYPTO_MIN_ORDER_QUANTITY : Q
}.

Section Executor.

Variable K : Constants.

Definition _calc_crypto_fee (notional : Q) (leverage : Z) : Q :=
  notional * CRYPTO_TAKER_FEE_RATE K.

(** [now] is the value of [datetime.now(timezone.utc)], in seconds. *)
Definition _calculate_position_interest (now : Q) (position : Position.t) : Q :=
  match Position.last_interest_time position with
  | None => 0
  | Some last_time =>
      if (Position.leverage position <=? 1)%Z then 0
      else
        let hours_elapsed := (now - last_time) / 3600 in
        let borrowed_notional :=
          Position.quantity position * Position.avg_cost position
          * (inject_Z (Position.leverage position) - 1)
          / inject_Z (Position.leverage position) in
        borrowed_notional * CRYPTO_INTEREST_RATE_HOURLY K * hours_elapsed
  end.

(** [Decimal(str(price if (order_type == "LIMIT" and price)
                 else get_last_price(symbol, "CRYPTO")))] *)
Definition exec_price_of (oracle : Oracle) (symbol : string)
    (order_type : OrderType) (price : option Q) : result Q :=
  match order_type, price with
  | LIMIT, Some v =>
      if truthy price then Ok v
      else decimal_of_quote (oracle symbol "CRYPTO")
  | _, _ => decimal_of_quote (oracle symbol "CRYPTO")
  end.

(** [pos.side == s] for a position attribute that may be [None]. *)
Definition side_is (p : Position.t) (s : Side) : bool :=
  match Position.side p with
  | Some x => Side_eqb x s
  | None => false
  end.

(** [pos and pos.leverage > 1 and pos.side] *)
Definition is_leveraged (p : Position.t) : bool :=
  (1 <? Position.leverage p)%Z &&
  match Position.side p with Some _ => true | None => false end.

(** The interest block shared by the open and close branches: compute the
    interest and, when it is positive, add it to the position's
    [accumulated_interest], check the cash and deduct it. *)
Definition charge_interest (now : Q) (i : nat) (p : Position.t) : Exec Q :=
  let interest_charged := _calculate_position_interest now p in
  (if Qltb 0 interest_charged then
     update_position i (fun p =>
       Position.set_accumulated_interest
         (Position.accumulated_interest p + interest_charged) p) ;;;
     s <- get ;;
     raise_if (Qltb (Account.current_cash (account s)) interest_charged)
              InsufficientCashForInterest ;;;
     set_account (Account.set_current_cash
                    (Account.current_cash (account s) - interest_charged)
                    (account s))
   else ret tt) ;;;
  ret interest_charged.

(** The branch [side in ("LONG", "SHORT")]; returns [interest_charged]. *)
Definition open_position (now : Q) (symbol name : string) (side : Side)
    (exec_price notional taker_fee quantity : Q) (leverage : Z)
    (pos : option (nat * Position.t)) : Exec Q :=
  let initial_margin := notional / inject_Z leverage in
  let total_cost := initial_margin + taker_fee in
  s <- get ;;
  let available_cash := Account.current_cash (account s) in
  raise_if (Qltb available_cash total_cost) InsufficientCash ;;;
  set_account (Account.set_current_cash (available_cash - total_cost) (account s)) ;;;
  (if (1 <? leverage)%Z then
     s <- get ;;
     set_account (Account.set_margin_used
                    (Account.margin_used (account s) + initial_margin)
                    (account s))
   else ret tt) ;;;
  '(i, interest_charged) <-
    match pos with
    | Some (i, p) =>
        if is_leveraged p then
          interest_charged <- charge_interest now i p ;;
          if side_is p side then
            let old_notional := Position.quantity p * Position.avg_cost p in
            let new_qty := Position.quantity p + quantity in
            new_cost <- decimal_div (old_notional + notional) new_qty ;;
            update_position i (fun p =>
              Position.set_avg_cost new_cost (Position.set_quantity new_qty p)) ;;;
            new_leverage <-
              decimal_div (old_notional * inject_Z (Position.leverage p)
                           + notional * inject_Z leverage)
                          (old_notional + notional) ;;
            update_position i (Position.set_leverage (py_int new_leverage)) ;;;
            ret (i, interest_charged)
          else raise ConflictingPosition
        else
          update_position i (fun p =>
            Position.set_side (Some side)
              (Position.set_leverage leverage
                 (Position.set_avg_cost exec_price
                    (Position.set_available_quantity quantity
                       (Position.set_quantity quantity p))))) ;;;
          ret (i, 0)
    | None =>
        i <- add_position
               (new_position (Account.id (account s)) symbol name "CRYPTO" 0 0 0 1) ;;
        update_position i (fun p =>
          Position.set_side (Some side)
            (Position.set_leverage leverage
               (Position.set_avg_cost exec_price
                  (Position.set_available_quantity quantity
                     (Position.set_quantity quantity p))))) ;;;
        ret (i, 0)
    end ;;
  update_position i (Position.set_last_interest_time (Some now)) ;;;
  ret interest_charged.

(** The branch [side in ("BUY", "SELL")]; returns [interest_charged]. *)
Definition close_position (now : Q) (side : Side)
    (notional taker_fee quantity : Q)
    (pos : option (nat * Position.t)) : Exec Q :=
  match pos with
  | None => raise NoPositionToClose
  | Some (i, p) =>
      raise_if (Qeq_bool (Position.quantity p) 0) NoPositionToClose ;;;
      interest_charged <- charge_interest now i p ;;
      (if (1 <? Position.leverage p)%Z then
         raise_if ((Side_eqb side SELL && negb (side_is p LONG))
                   || (Side_eqb side BUY && negb (side_is p SHORT)))
                  SideMismatch ;;;
         raise_if (Qltb (Position.quantity p) quantity) ExceedsPositionSize ;;;
         let entry_notional := Position.avg_cost p * quantity in
         let exit_notional := notional in
         let pnl := if side_is p LONG then exit_notional - entry_notional
                    else entry_notional - exit_notional in
         let margin_released := entry_notional / inject_Z (Position.leverage p) in
         let net_cash_change := pnl + margin_released - taker_fee in
         s <- get ;;
         set_account (Account.set_current_cash
                        (Account.current_cash (account s) + net_cash_change)
                        (account s)) ;;;
         s <- get ;;
         set_account (Account.set_margin_used
                        (Account.margin_used (account s) - margin_released)
                        (account s)) ;;;
         update_position i (fun p =>
           Position.set_available_quantity
             (Position.available_quantity p - quantity)
             (Position.set_quantity (Position.quantity p - quantity) p)) ;;;
         if Qeq_bool (Position.quantity p - quantity) 0 then
           update_position i (fun p =>
             Position.set_last_interest_time None
               (Position.set_leverage 1 (Position.set_side None p)))
         else
           update_position i (Position.set_last_interest_time (Some now))
       else
         raise_if (negb (Side_eqb side SELL)) OnlySellSpot ;;;
         raise_if (Qltb (Position.available_quantity p) quantity)
                  InsufficientPosition ;;;
         let cash_gain := notional - taker_fee in
         s <- get ;;
         set_account (Account.set_current_cash
                        (Account.current_cash (account s) + cash_gain)
                        (account s)) ;;;
         update_position i (fun p =>
           Position.set_available_quantity
             (Position.available_quantity p - quantity)
             (Position.set_quantity (Position.quantity p - quantity) p))) ;;;
      ret interest_charged
  end.

Definition place_and_execute_crypto (oracle : Oracle) (now : Q)
    (symbol name : string) (side : Side) (order_type : OrderType)
    (price : option Q) (quantity : Q) (leverage : Z) : Exec Order.t :=
  raise_if ((leverage <? 1)%Z || (CRYPTO_MAX_LEVERAGE K <? leverage)%Z)
           InvalidLeverage ;;;
  raise_if (Qltb quantity (CRYPTO_MIN_ORDER_QUANTITY K)) QuantityBelowMinimum ;;;
  exec_price <- lift (exec_price_of oracle symbol order_type price) ;;
  let notional := exec_price * quantity in
  let taker_fee := _calc_crypto_fee notional leverage in
  s <- get ;;
  let order :=
    Order.mk (Account.id (account s)) symbol name "CRYPTO" side order_type
      (Some exec_price) quantity leverage 0 PENDING in
  oid <- add_order order ;;
  pos <- query_position symbol "CRYPTO" ;;
  interest_charged <-
    match side with
    | LONG | SHORT =>
        open_position now symbol name side exec_price notional taker_fee
          quantity leverage pos
    | BUY | SELL => close_position now side notional taker_fee quantity pos
    | OTHER => raise InvalidSide
    end ;;
  add_trade (Trade.mk oid (Account.id (account s)) symbol "CRYPTO" side
               exec_price quantity taker_fee taker_fee interest_charged) ;;;
  fill_order oid order.

End Executor.

End Crypto.

(** ** Position valuation ([services/asset_calculator.py]) *)

Module Valuation.

(** The body of the loop of [calc_positions_market_value] for one position:
    the equity it adds to [total], or [None] when the [try] block raises
    (the oracle failed, or [Decimal("None")]) and the position is skipped. *)
Definition position_equity (oracle : Oracle) (p : Position.t) : option Q :=
  match oracle (Position.symbol p) (Position.market p) with
  | QuoteRaises => None
  | QuoteNone => None
  | QuotePrice price =>
      let quantity := Position.quantity p in
      let avg_cost := Position.avg_cost p in
      let leverage :=
        if (0 <? Position.leverage p)%Z then inject_Z (Position.leverage p)
        else 1 in
      let market_value := quantity * price in
      Some (if Qltb 1 leverage then
              let initial_margin := market_value / leverage in
              let unrealized_pnl := quantity * (price - avg_cost) in
              initial_margin + unrealized_pnl
            else market_value)
  end.

Fixpoint sum_equity (oracle : Oracle) (total : Q) (ps : list Position.t) : Q :=
  match ps with
  | [] => total
  | p :: r =>
      match position_equity oracle p with
      | Some position_equity => sum_equity oracle (total + position_equity) r
      | None => sum_equity oracle total r
      end
  end.

Definition calc_positions_market_value (oracle : Oracle)
    (db : list Position.t) (account_id : Z) : Q :=
  let positions :=
    List.filter (fun p => (Position.account_id p =? account_id)%Z) db in
  sum_equity oracle 0 positions.

End Valuation.

(** ** Order matching used by forced liquidation *)

Module Matching.

Inductive rejection :=
  | PriceUnavailable
  | InsufficientFunds
  | NoPosition
  | SideMismatch
  | InvalidSide.

Section ClosePath.

Variable K : Crypto.Constants.
(** The fee schedule of the order's market: market, side, notional and
    quantity to total fees. *)
Variable fees : string -> Side -> Q -> Q -> Q.

(** Modelled from the spec: price resolution of a MARKET order, missing
    with [services/market_data.py] and [services/order_matching.py]; the
    oracle returning null, zero or failing means the price is
    unavailable. *)
Definition market_price (oracle : Oracle) (symbol market : string)
  : rejection + Q :=
  match oracle symbol market with
  | QuotePrice p => if Qeq_bool p 0 then inl PriceUnavailable else inr p
  | _ => inl PriceUnavailable
  end.

(** Modelled from the spec: the close path of the execution engine
    (section 4.2, step 4, Close), through which
    [services/order_matching.py] (absent) routes a liquidation order.
    - no position, or insufficient [available_quantity]: [NoPosition];
    - leveraged close: the closing side must be the inverse of the
      position's side ([SideMismatch]); outstanding interest, if any, is
      accrued and deducted first ([InsufficientFunds] if the cash cannot
      cover it); PnL is [(exit - entry) * qty] for LONG and
      [(entry - exit) * qty] for SHORT; released margin is
      [entry_notional / leverage]; net cash change is
      [PnL + released_margin - fees];
    - spot close: cash gain is [notional - fees];
    - [quantity] and [available_quantity] are decremented, and [side],
      [leverage] and [last_interest_time] are reset when the quantity
      reaches exactly 0.
    A rejection leaves the account and the positions as they were. *)
Definition close_path (now exec_price : Q) (o : Order.t)
    (acct : Account.t) (ps : list Position.t)
  : rejection + (Account.t * list Position.t * Q) :=
  match first_position (Order.account_id o) (Order.symbol o)
                       (Order.market o) ps with
  | None => inl NoPosition
  | Some (i, p) =>
      let quantity := Order.quantity o in
      if Qltb (Position.available_quantity p) quantity then inl NoPosition
      else
        let notional := exec_price * quantity in
        let fee := fees (Order.market o) (Order.side o) notional quantity in
        let decrement (p : Position.t) :=
          Position.set_available_quantity
            (Position.available_quantity p - quantity)
            (Position.set_quantity (Position.quantity p - quantity) p) in
        let settle (p : Position.t) :=
          if Qeq_bool (Position.quantity p - quantity) 0 then
            Position.set_last_interest_time None
              (Position.set_leverage 1 (Position.set_side None (decrement p)))
          else Position.set_last_interest_time (Some now) (decrement p) in
        if (1 <? Position.leverage p)%Z then
          let is_long := Crypto.side_is p LONG in
          let is_short := Crypto.side_is p SHORT in
          if negb ((Side_eqb (Order.side o) SELL && is_long)
                   || (Side_eqb (Order.side o) BUY && is_short))
          then inl SideMismatch
          else
            let accrued := Crypto._calculate_position_interest K now p in
            if Qltb 0 accrued && Qltb (Account.current_cash acct) accrued
            then inl InsufficientFunds
            else
              let interest := if Qltb 0 accrued then accrued else 0 in
              let entry_notional := Position.avg_cost p * quantity in
              let pnl := if is_long then notional - entry_notional
                         else entry_notional - notional in
              let released_margin :=
                entry_notional / inject_Z (Position.leverage p) in
              let net_cash_change := pnl + released_margin - fee in
              let acct' :=
                Account.set_margin_used
                  (Account.margin_used acct - released_margin)
                  (Account.set_current_cash
                     (Account.current_cash acct - interest + net_cash_change)
                     acct) in
              let p' :=
                settle (Position.set_accumulated_interest
                          (Position.accumulated_interest p + interest) p) in
              inr (acct', update_nth i (fun _ => p') ps, interest)
        else
          if negb (Side_eqb (Order.side o) SELL) then inl InvalidSide
          else
            let acct' :=
              Account.set_current_cash
                (Account.current_cash acct + (notional - fee)) acct in
            inr (acct', update_nth i settle ps, 0)
  end.

Definition reject (o : Order.t) : Order.t :=
  Order.mk (Order.account_id o) (Order.symbol o) (Order.name o)
    (Order.market o) (Order.side o) (Order.order_type o) (Order.price o)
    (Order.quantity o) (Order.leverage o) (Order.filled_quantity o) REJECTED.

Definition fill_at (exec_price : Q) (o : Order.t) : Order.t :=
  Order.mk (Order.account_id o) (Order.symbol o) (Order.name o)
    (Order.market o) (Order.side o) (Order.order_type o) (Some exec_price)
    (Order.quantity o) (Order.leverage o) (Order.quantity o) FILLED.

(** Modelled from the spec: [check_and_execute_order(db, order)] of
    [services/order_matching.py], which is absent.  The order (the row
    with key [oid]) is priced by the oracle and routed through
    [close_path]; it ends FILLED with a trade recorded and [True]
    returned, or REJECTED with [False] returned and nothing else
    changed. *)
Definition check_and_execute_order (oracle : Oracle) (now : Q) (oid : nat)
  : Exec bool :=
  s <- get ;;
  match nth_error (orders s) oid with
  | None => ret false
  | Some o =>
      match market_price oracle (Order.symbol o) (Order.market o) with
      | inl _ => set_orders (update_nth oid reject (orders s)) ;;; ret false
      | inr exec_price =>
          match close_path now exec_price o (account s) (positions s) with
          | inl _ =>
              set_orders (update_nth oid reject (orders s)) ;;; ret false
          | inr (acct', ps', interest) =>
              let notional := exec_price * Order.quantity o in
              let fee := fees (Order.market o) (Order.side o) notional
                              (Order.quantity o) in
              set_account acct' ;;;
              set_positions ps' ;;;
              add_trade (Trade.mk oid (Order.account_id o) (Order.symbol o)
                           (Order.market o) (Order.side o) exec_price
                           (Order.quantity o) fee fee interest) ;;;
              s <- get ;;
              set_orders (update_nth oid (fill_at exec_price) (orders s)) ;;;
              ret true
          end
      end
  end.

End ClosePath.

End Matching.

(** ** Margin monitor ([services/scheduler.py]) *)

Module Scheduler.

Section Monitor.

Variable K : Crypto.Constants.
Variable fees : string -> Side -> Q -> Q -> Q.
Variable oracle : Oracle.

(** The filter [account_id == account.id, quantity > 0, leverage > 1]. *)
Definition is_open_leveraged (aid : Z) (p : Position.t) : bool :=
  (Position.account_id p =? aid)%Z && Qltb 0 (Position.quantity p)
  && (1 <? Position.leverage p)%Z.

(** [.all()]: the keys of the matching rows, in table order, counted from
    [start]. *)
Fixpoint select (f : Position.t -> bool) (start : nat) (ps : list Position.t)
  : list nat :=
  match ps with
  | [] => []
  | p :: r =>
      if f p then start :: select f (S start) r else select f (S start) r
  end.

(** One iteration of the PnL loop: [None] when the iteration is left by
    [continue] (no price, a price that is not positive, or an
    exception). *)
Definition position_pnl (p : Position.t) : option Q :=
  match oracle (Position.symbol p) (Position.market p) with
  | QuotePrice current_price =>
      if Qeq_bool current_price 0 || Qle_bool current_price 0 then None
      else
        let quantity := Position.quantity p in
        let avg_cost := Position.avg_cost p in
        Some (if Crypto.side_is p LONG then quantity * (current_price - avg_cost)
              else if Crypto.side_is p SHORT then quantity * (avg_cost - current_price)
              else quantity * (current_price - avg_cost))
  | _ => None
  end.

Fixpoint sum_pnl (total_pnl : Q) (ps : list Position.t) : Q :=
  match ps with
  | [] => total_pnl
  | p :: r =>
      match position_pnl p with
      | Some pnl => sum_pnl (total_pnl + pnl) r
      | None => sum_pnl total_pnl r
      end
  end.

(** [try: body except Exception: log]: an exception ends the body and the
    loop goes on with the session as the body left it. *)
Definition attempt (body : Exec unit) : Exec unit :=
  fun s => match body s with
           | (Ok _, s') => (Ok tt, s')
           | (Raise _, s') => (Ok tt, s')
           end.

(** [close_side = "SELL" if position.side == "LONG" else "BUY"] *)
Definition close_side (p : Position.t) : Side :=
  if Crypto.side_is p LONG then SELL else BUY.

(** The liquidation order built for a position. *)
Definition liquidation_order (aid : Z) (p : Position.t) : Order.t :=
  Order.mk aid (Position.symbol p) (Position.name p) (Position.market p)
    (close_side p) MARKET None (Position.quantity p) 1 0 PENDING.

(** The body of the loop of [_liquidate_positions] for the position object
    with key [i], read in its current state. *)
Definition liquidate_position (now : Q) (i : nat) : Exec unit :=
  attempt (
    s <- get ;;
    match nth_error (positions s) i with
    | None => ret tt
    | Some position =>
        if Qle_bool (Position.quantity position) 0 then ret tt
        else
          oid <- add_order (liquidation_order (Account.id (account s)) position) ;;
          _ <- Matching.check_and_execute_order K fees oracle now oid ;;
          ret tt
    end).

Fixpoint _liquidate_positions (now : Q) (positions : list nat) : Exec unit :=
  match positions with
  | [] => ret tt
  | i :: rest =>
      liquidate_position now i ;;; _liquidate_positions now rest
  end.

(** [equity / margin_used < maintenance_margin_ratio], for
    [margin_used > 0]. *)
Definition margin_call (s : Session) : bool :=
  let ps := List.filter (is_open_leveraged (Account.id (account s))) (positions s) in
  let total_pnl := sum_pnl 0 ps in
  let equity := Account.current_cash (account s) + total_pnl in
  let margin_used := Account.margin_used (account s) in
  let margin_level := equity / margin_used in
  Qltb margin_level (Account.maintenance_margin_ratio (account s)).

Definition _check_account_margin (now : Q) : Exec unit :=
  s <- get ;;
  let positions :=
    select (is_open_leveraged (Account.id (account s))) 0 (positions s) in
  match positions with
  | [] => ret tt
  | _ =>
      if Qle_bool (Account.margin_used (account s)) 0 then ret tt
      else if margin_call s then _liquidate_positions now positions
      else ret tt
  end.

End Monitor.

End Scheduler.

(** ** Notional exposure ([services/asset_calculator.py]) *)

Module AssetCalculator.

(** The body of the loop of [calc_positions_value] for one position:
    [price * quantity * leverage], or [None] when the [try] block raises and
    the position is skipped. *)
Definition position_notional (oracle : Oracle) (p : Position.t) : option Q :=
  match oracle (Position.symbol p) (Position.market p) with
  | QuoteRaises => None
  | QuoteNone => None
  | QuotePrice price =>
      Some (price * Position.quantity p * inject_Z (Position.leverage p))
  end.

Fixpoint sum_notional (oracle : Oracle) (total : Q) (ps : list Position.t) : Q :=
  match ps with
  | [] => total
  | p :: r =>
      match position_notional oracle p with
      | Some v => sum_notional oracle (total + v) r
      | None => sum_notional oracle total r
      end
  end.

Definition calc_positions_value (oracle : Oracle) (db : list Position.t)
    (account_id : Z) : Q :=
  let positions :=
    List.filter (fun p => (Position.account_id p =? account_id)%Z) db in
  sum_notional oracle 0 positions.

End AssetCalculator.

(** ** Futu executor for HK and US equities
       ([services/futu_order_executor.py]) *)

Module Futu.

Definition HK_MIN_ORDER_QUANTITY : Z := 100.
Definition HK_COMMISSION_RATE : Q := 0.0003.
Definition HK_MIN_COMMISSION : Q := 3.
Definition HK_PLATFORM_FEE : Q := 15.
Definition HK_STAMP_DUTY_RATE : Q := 0.001.

Definition US_MIN_ORDER_QUANTITY : Z := 1.
Definition US_COMMISSION_PER_SHARE : Q := 0.005.
Definition US_MIN_COMMISSION : Q := 1.

(** Returns [(commission, platform_fee, stamp_duty)]; [is_sell] is not
    consulted, the stamp duty being charged on both sides. *)
Definition _calc_hk_fee (notional : Q) (is_sell : bool) : Q * Q * Q :=
  let commission := pymax (notional * HK_COMMISSION_RATE) HK_MIN_COMMISSION in
  let platform_fee := HK_PLATFORM_FEE in
  let stamp_duty := notional * HK_STAMP_DUTY_RATE in
  (commission, platform_fee, stamp_duty).

Definition _calc_us_fee (quantity : Z) : Q :=
  pymax (inject_Z quantity * US_COMMISSION_PER_SHARE) US_MIN_COMMISSION.

(** ["HK" if symbol.startswith("HK.") else "US" if
     symbol.startswith("US.") else "CN"] *)
Definition market_of (symbol : string) : string :=
  if String.prefix "HK." symbol then "HK"
  else if String.prefix "US." symbol then "US"
  else "CN".

(** The mirror call to the Futu terminal ([use_futu_platform]) sits in a
    [try/except] and has no effect on the ledger.  The BUY and SELL branches
    are, statement for statement, those of the MT5 executor. *)
Definition place_and_execute_futu_order (oracle : string -> quote)
    (symbol name : string) (side : Side) (order_type : OrderType)
    (price : option Q) (quantity : Z) (use_futu_platform : bool)
  : Exec Order.t :=
  let market := market_of symbol in
  let min_qty :=
    if String.eqb market "HK" then HK_MIN_ORDER_QUANTITY
    else US_MIN_ORDER_QUANTITY in
  raise_if (quantity <? min_qty)%Z QuantityBelowMinimum ;;;
  raise_if (String.eqb market "HK"
            && negb (quantity mod HK_MIN_ORDER_QUANTITY =? 0)%Z)
           InvalidLotMultiple ;;;
  exec_price <- lift (MT5.exec_price_of oracle symbol order_type price) ;;
  let notional := exec_price * inject_Z quantity in
  let is_sell := Side_eqb side SELL in
  let total_fee :=
    if String.eqb market "HK" then
      let '(commission, platform_fee, stamp_duty) := _calc_hk_fee notional is_sell in
      commission + platform_fee + stamp_duty
    else _calc_us_fee quantity in
  s <- get ;;
  let order :=
    Order.mk (Account.id (account s)) symbol name market side order_type
      (Some exec_price) (inject_Z quantity) 1 0 PENDING in
  oid <- add_order order ;;
  match side with
  | BUY => MT5.execute_buy symbol name market exec_price notional total_fee quantity
  | SELL => MT5.execute_sell symbol market notional total_fee quantity
  | _ => raise InvalidSide
  end ;;;
  add_trade (Trade.mk oid (Account.id (account s)) symbol market side
               exec_price (inject_Z quantity) total_fee 0 0) ;;;
  fill_order oid order.

End Futu.

(** ** IBKR executor for US equities ([services/ibkr_order_executor.py]) *)

Module IBKR.

Definition US_MIN_ORDER_QUANTITY : Z := 1.
Definition US_COMMISSION_PER_SHARE : Q := 0.005.
Definition US_MIN_COMMISSION : Q := 1.

(** The price is accepted and not used. *)
Definition _calc_us_fee (quantity : Z) (price : Q) : Q :=
  pymax (inject_Z quantity * US_COMMISSION_PER_SHARE) US_MIN_COMMISSION.

(** The mirror call to IBKR ([use_ibkr_platform]) sits in a [try/except] and
    has no effect on the ledger.  The BUY and SELL branches are those of the
    MT5 executor with the market fixed to ["US"]. *)
Definition place_and_execute_ibkr_order (oracle : string -> quote)
    (symbol name : string) (side : Side) (order_type : OrderType)
    (price : option Q) (quantity : Z) (use_ibkr_platform : bool)
  : Exec Order.t :=
  raise_if (quantity <? US_MIN_ORDER_QUANTITY)%Z QuantityBelowMinimum ;;;
  exec_price <- lift (MT5.exec_price_of oracle symbol order_type price) ;;
  let notional := exec_price * inject_Z quantity in
  let commission := _calc_us_fee quantity exec_price in
  let total_fee := commission in
  s <- get ;;
  let order :=
    Order.mk (Account.id (account s)) symbol name "US" side order_type
      (Some exec_price) (inject_Z quantity) 1 0 PENDING in
  oid <- add_order order ;;
  match side with
  | BUY => MT5.execute_buy symbol name "US" exec_price notional total_fee quantity
  | SELL => MT5.execute_sell symbol "US" notional total_fee quantity
  | _ => raise InvalidSide
  end ;;;
  add_trade (Trade.mk oid (Account.id (account s)) symbol "US" side
               exec_price (inject_Z quantity) total_fee 0 0) ;;;
  fill_order oid order.

End IBKR.

(** ** Vocabulary of the statements *)

(** The account of the example scenario: 100000 in cash, nothing else. *)
Definition example_account : Session :=
  mkSession (Account.mk 1 100000 0 0.05) [] [] [].

(** An oracle that is never reached (limit orders) or always fails. *)
Definition no_quote : Oracle := fun _ _ => QuoteRaises.

(** Sample values for the constants of [database.models]. *)
Definition example_constants : Crypto.Constants :=
  Crypto.mkConstants 0.001 0.0001 50 0.001.

(** A 10x LONG of 2 BTC opened at 30000 at time 0. *)
Definition example_long : Position.t :=
  Position.mk 1 "BTC/USDT" "Bitcoin" "CRYPTO" 2 2 30000 10 (Some LONG) 0 (Some 0).

(** The two checks at the head of [place_and_execute_crypto] pass. *)
Definition valid_crypto_order (K : Crypto.Constants) (quantity : Q)
    (leverage : Z) : Prop :=
  (1 <= leverage <= Crypto.CRYPTO_MAX_LEVERAGE K)%Z
  /\ Crypto.CRYPTO_MIN_ORDER_QUANTITY K <= quantity.

(** The two checks at the head of [place_and_execute_astock] pass. *)
Definition valid_astock_order (quantity : Z) : Prop :=
  (quantity mod AStock.ASTOCK_LOT_SIZE = 0)%Z
  /\ (AStock.ASTOCK_MIN_ORDER_QUANTITY <= quantity)%Z.



(** A computation that leaves a component of the session as it found it,
    whether it returns or raises. *)
Definition keeps {A B} (proj : Session -> B) (c : Exec A) : Prop :=
  forall s, proj (snd (c s)) = proj s.




(** The session's account, positions and trades are those of [s]. *)
Definition untouched (s s' : Session) : Prop :=
  account s' = account s /\ positions s' = positions s /\ trades s' = trades s.


(** The example account after a 10x LONG of 1 BTC at 30000. *)
Definition long_session : Session :=
  snd (Crypto.place_and_execute_crypto example_constants no_quote 0 "BTC/USDT"
         "Bitcoin" LONG LIMIT (Some 30000) 1 10 example_account).

(** The identity of a position row: (account, symbol, market). *)
Definition position_key (p : Position.t) : Z * string * string :=
  (Position.account_id p, Position.symbol p, Position.market p).




(** An account in margin call: 10 in cash and 3000 of margin behind a 10x
    LONG of 1 BTC opened at 30000 at time 0, with BTC now quoted at 29000. *)
Definition margin_call_session : Session :=
  mkSession (Account.mk 1 10 3000 0.05)
    [Position.mk 1 "BTC/USDT" "Bitcoin" "CRYPTO" 1 1 30000 10 (Some LONG) 0
       (Some 0)] [] [].

Definition falling_quote : Oracle := fun _ _ => QuotePrice 29000.

(** A fee schedule charging the sample taker rate in every market. *)
Definition example_fees : string -> Side -> Q -> Q -> Q :=
  fun _ _ notional _ => notional * 0.001.


(** An oracle that answers every lookup with a price of zero. *)
Definition zero_quote : Oracle := fun _ _ => QuotePrice 0.

(** A spot holding of 3 BTC bought at 20000, in the example account. *)
Definition example_spot_session : Session :=
  mkSession (Account.mk 1 100000 0 0.05)
    [Position.mk 1 "BTC/USDT" "Bitcoin" "CRYPTO" 3 3 20000 1 None 0 None] [] [].

(** A 10x LONG of 2 BTC at 30000 needs 6000 of margin; an account with 100
    in cash cannot afford it. *)
Definition poor_account : Session :=
  mkSession (Account.mk 1 100 0 0.05) [] [] [].

(** ** Sample ledgers for the further properties *)

(** The example account holding 200 shares of 600000 bought at 8. *)
Definition astock_holding_session : Session :=
  mkSession (Account.mk 1 100000 0 0.05)
    [new_position 1 "600000" "SPDB" "ASTOCK" 200 200 8 1] [] [].

(** Every row has a non-negative quantity of which no more than the whole is
    available. *)
Definition well_formed_quantities (ps : list Position.t) : Prop :=
  Forall (fun p => 0 <= Position.quantity p
                   /\ Position.available_quantity p <= Position.quantity p) ps.

(** The session with the account's cash replaced. *)
Definition with_cash (cash : Q) (s : Session) : Session :=
  mkSession (Account.set_current_cash cash (account s)) (positions s)
    (orders s) (trades s).



(** The example account holding a 10x SHORT of 2 BTC opened at 30000 at
    time 0, with 6000 of margin posted. *)
Definition short_session : Session :=
  mkSession (Account.mk 1 50000 6000 0.05)
    [Position.mk 1 "BTC/USDT" "Bitcoin" "CRYPTO" 2 2 30000 10 (Some SHORT) 0
       (Some 0)] [] [].

(** The equity the margin monitor computes for the account: its cash plus
    the unrealized profit of its open leveraged positions that have a
    positive quote. *)
Definition monitored_equity (oracle : Oracle) (s : Session) : Q :=
  Account.current_cash (account s)
  + Scheduler.sum_pnl oracle 0
      (filter (Scheduler.is_open_leveraged (Account.id (account s)))
         (positions s)).

(** The row does not count for the account under the oracle: it belongs to
    another account, or its symbol has no quote. *)
Definition not_counted (oracle : Oracle) (account_id : Z) (p : Position.t)
  : Prop :=
  Position.account_id p <> account_id
  \/ oracle (Position.symbol p) (Position.market p) = QuoteRaises
  \/ oracle (Position.symbol p) (Position.market p) = QuoteNone.

(** A quote for BTC only. *)
Definition btc_only_quote : Oracle :=
  fun symbol _ =>
    if String.eqb symbol "BTC/USDT" then QuotePrice 31000 else QuoteNone.

(** No two rows of the position table share an (account, symbol, market)
    key. *)
Definition unique_keys (s : Session) : Prop :=
  NoDup (map position_key (positions s)).

(** The keys of [ps'] are those of [ps], followed at most by the key
    (account, symbol, market), and then only if [ps] had no row for it. *)
Definition grows_by_key (aid : Z) (symbol market : string)
    (ps ps' : list Position.t) : Prop :=
  map position_key ps' = map position_key ps
  \/ (first_position aid symbol market ps = None
      /\ map position_key ps' = map position_key ps ++ [(aid, symbol, market)]).

(** The two checks at the head of [place_and_execute_futu_order] pass: a
    Hong Kong symbol needs a positive multiple of the lot of 100, any other
    symbol a quantity of at least 1. *)
Definition valid_futu_order (symbol : string) (quantity : Z) : Prop :=
  if String.prefix "HK." symbol
  then (100 <= quantity)%Z /\ (quantity mod 100 = 0)%Z
  else (1 <= quantity)%Z.

(** What a fill moves into the cash balance before fees: a BUY pays the
    notional, a SELL receives it. *)
Definition cash_flow (side : Side) (notional : Q) : Q :=
  match side with
  | BUY => - notional
  | _ => notional
  end.

(** The fee of a Futu order on [symbol]: commission, platform fee and stamp
    duty for Hong Kong, the per-share commission elsewhere. *)
Definition futu_total_fee (symbol : string) (notional : Q) (quantity : Z) : Q :=
  if String.prefix "HK." symbol then
    pymax (notional * Futu.HK_COMMISSION_RATE) Futu.HK_MIN_COMMISSION
    + Futu.HK_PLATFORM_FEE + notional * Futu.HK_STAMP_DUTY_RATE
  else Futu._calc_us_fee quantity.

(** No quote from a single-market feed. *)
Definition silent_feed : string -> quote := fun _ => QuoteNone.

(** * Properties *)

(** ** Basic facts about the numeric tests *)

Lemma Qltb_true (a b : Q) : Qltb a b = true <-> a < b.
Proof.
  unfold Qltb. rewrite negb_true_iff, <- not_true_iff_false, Qle_bool_iff.
  split; intro H; [apply Qnot_le_lt | apply Qlt_not_le]; exact H.
Qed.

Lemma Qltb_false (a b : Q) : Qltb a b = false <-> b <= a.
Proof.
  unfold Qltb. rewrite negb_false_iff. apply Qle_bool_iff.
Qed.


(** Unfolds the monadic plumbing so that a run of an executor on a session
    becomes a cascade of tests. *)
Ltac run_exec :=
  unfold bind, raise_if, lift, get, add_order, query_position, update_position,
    set_account, set_orders, modify, ret, raise, add_position, set_positions,
    add_trade, fill_order, decimal_div; cbn.

(** The same, in a hypothesis. *)
Ltac run_exec_in H :=
  unfold bind, raise_if, lift, get, add_order, query_position, update_position,
    set_account, set_orders, modify, ret, raise, add_position, set_positions,
    add_trade, fill_order, decimal_div in H; cbn in H.

(** ** Facts about the position table *)

Lemma first_position_nth (aid : Z) (sym mkt : string) (ps : list Position.t)
    (i : nat) (p : Position.t) :
  first_position aid sym mkt ps = Some (i, p) ->
  nth_error ps i = Some p /\ pos_matches aid sym mkt p = true.
Proof.
  revert i. induction ps as [|q r IH]; intros i H; cbn in H; [discriminate|].
  destruct (pos_matches aid sym mkt q) eqn:Hq.
  - inversion H; subst. split; [reflexivity | exact Hq].
  - destruct (first_position aid sym mkt r) as [[j q']|]; [|discriminate].
    inversion H; subst. cbn. apply IH. reflexivity.
Qed.

Lemma first_position_app_new (aid : Z) (sym mkt : string)
    (ps : list Position.t) (p : Position.t) :
  first_position aid sym mkt ps = None ->
  pos_matches aid sym mkt p = true ->
  first_position aid sym mkt (ps ++ [p]) = Some (List.length ps, p).
Proof.
  intros Hnone Hp. induction ps as [|q r IH]; cbn in *.
  - rewrite Hp. reflexivity.
  - destruct (pos_matches aid sym mkt q); [discriminate|].
    destruct (first_position aid sym mkt r) as [[j q']|]; [discriminate|].
    rewrite IH; reflexivity.
Qed.


Lemma pos_matches_refl (aid : Z) (sym mkt nm : string) (q a c : Q) (l : Z)
    (sd : option Side) (acc : Q) (t : option Q) :
  pos_matches aid sym mkt (Position.mk aid sym nm mkt q a c l sd acc t) = true.
Proof.
  unfold pos_matches. cbn. rewrite Z.eqb_refl, !String.eqb_refl. reflexivity.
Qed.

Lemma nth_error_update_nth {A} (f : A -> A) (l : list A) (i : nat) (x : A) :
  nth_error l i = Some x -> nth_error (update_nth i f l) i = Some (f x).
Proof.
  revert i. induction l as [|y r IH]; intros [|i] H; cbn in *;
    try discriminate.
  - inversion H; reflexivity.
  - apply IH, H.
Qed.

Lemma nth_error_update_nth_other {A} (f : A -> A) (l : list A) (i j : nat) :
  i <> j -> nth_error (update_nth i f l) j = nth_error l j.
Proof.
  revert i j. induction l as [|y r IH]; intros [|i] [|j] H; cbn;
    try reflexivity; try congruence.
  apply IH. congruence.
Qed.

Lemma update_nth_length {A} (f : A -> A) (l : list A) (i : nat) :
  List.length (update_nth i f l) = List.length l.
Proof.
  revert i. induction l as [|y r IH]; intros [|i]; cbn; auto.
Qed.

Lemma update_nth_compose {A} (f g : A -> A) (l : list A) (i : nat) :
  update_nth i g (update_nth i f l) = update_nth i (fun x => g (f x)) l.
Proof.
  revert i. induction l as [|y r IH]; intros [|i]; cbn; auto.
  f_equal. apply IH.
Qed.

Lemma update_nth_app_last {A} (f : A -> A) (l : list A) (x : A) :
  update_nth (List.length l) f (l ++ [x]) = l ++ [f x].
Proof.
  induction l as [|y r IH]; cbn; [reflexivity|]. f_equal. exact IH.
Qed.

(** ** The A-share example scenario *)




(** The MT5 executor, which serves the "CN" market, does charge the transfer
    fee: the same order costs 5.02 in fees there and leaves 98994.98. *)
Lemma mt5_buy_example :
  let r := MT5.place_and_execute_mt5_order (fun _ => QuoteRaises) "600000"
             "SPDB" BUY LIMIT (Some 10) 100 false "CN" example_account in
  (exists o, fst r = Ok o /\ Order.status o = FILLED)
  /\ Account.current_cash (account (snd r)) == 98994.98
  /\ MT5._calc_cn_fee 100 10 false == 5.02.
Proof.
  split; [eexists; split; reflexivity|]. split; reflexivity.
Qed.

(** ** Interest accrual *)



(** ** Position equity *)


Lemma sum_equity_app (oracle : Oracle) (l1 l2 : list Position.t) (total : Q) :
  Valuation.sum_equity oracle total (l1 ++ l2) =
  Valuation.sum_equity oracle (Valuation.sum_equity oracle total l1) l2.
Proof.
  revert total. induction l1 as [|p r IH]; intro total; cbn; [reflexivity|].
  destruct (Valuation.position_equity oracle p); apply IH.
Qed.



(** ** The leveraged executor: opening and closing *)

Section CryptoFacts.

Variable K : Crypto.Constants.

Lemma valid_crypto_order_checks (quantity : Q) (leverage : Z) :
  valid_crypto_order K quantity leverage ->
  ((leverage <? 1)%Z || (Crypto.CRYPTO_MAX_LEVERAGE K <? leverage)%Z = false)
  /\ Qltb quantity (Crypto.CRYPTO_MIN_ORDER_QUANTITY K) = false.
Proof.
  intros [[H1 H2] H3]. split.
  - apply orb_false_iff. split; apply Z.ltb_ge; assumption.
  - apply Qltb_false. exact H3.
Qed.

(** C10.  Opening LONG or SHORT on a symbol whose existing position has
    leverage 1 or no side overwrites the position's quantity,
    available quantity, average cost, leverage and side with the order's
    values; what was held before is not merged. *)
Theorem open_overwrites_unleveraged (oracle : Oracle) (now : Q) (s : Session)
    (symbol name : string) (side : Side) (order_type : OrderType)
    (price : option Q) (quantity : Q) (leverage : Z) (exec_price : Q)
    (i : nat) (p : Position.t) :
  side = LONG \/ side = SHORT ->
  valid_crypto_order K quantity leverage ->
  Crypto.exec_price_of oracle symbol order_type price = Ok exec_price ->
  exec_price * quantity / inject_Z leverage
    + Crypto._calc_crypto_fee K (exec_price * quantity) leverage
    <= Account.current_cash (account s) ->
  first_position (Account.id (account s)) symbol "CRYPTO" (positions s)
    = Some (i, p) ->
  Position.leverage p = 1%Z \/ Position.side p = None ->
  exists o s' p',
    Crypto.place_and_execute_crypto K oracle now symbol name side order_type
      price quantity leverage s = (Ok o, s')
    /\ Order.status o = FILLED
    /\ nth_error (positions s') i = Some p'
    /\ Position.quantity p' = quantity
    /\ Position.available_quantity p' = quantity
    /\ Position.avg_cost p' = exec_price
    /\ Position.leverage p' = leverage
    /\ Position.side p' = Some side.
Proof.
  intros Hside Hvalid Hprice Hcash Hpos Hflat.
  destruct (valid_crypto_order_checks _ _ Hvalid) as [Hv1 Hv2].
  apply Qltb_false in Hcash.
  assert (Hlev : Crypto.is_leveraged p = false).
  { unfold Crypto.is_leveraged. destruct Hflat as [H | H]; rewrite H.
    - reflexivity.
    - apply andb_false_r. }
  destruct (first_position_nth _ _ _ _ _ _ Hpos) as [Hnth _].
  unfold Crypto.place_and_execute_crypto. run_exec.
  rewrite Hv1, Hv2, Hprice. cbn. rewrite Hpos.
  unfold Crypto.open_position.
  destruct Hside; subst side; run_exec; rewrite Hcash; cbn;
    destruct (1 <? leverage)%Z; cbn; rewrite Hlev; cbn;
    (do 3 eexists; split; [reflexivity|]; split; [reflexivity|]; cbn;
     rewrite update_nth_compose;
     split; [apply nth_error_update_nth; exact Hnth|];
     cbn; repeat split; reflexivity).
Qed.







End CryptoFacts.

Lemma open_overwrites_unleveraged_witness :
  exists o s' p',
    Crypto.place_and_execute_crypto example_constants no_quote 0 "BTC/USDT"
      "Bitcoin" SHORT LIMIT (Some 30000) 2 10 example_spot_session = (Ok o, s')
    /\ Order.status o = FILLED
    /\ nth_error (positions s') 0 = Some p'
    /\ Position.quantity p' = 2
    /\ Position.available_quantity p' = 2
    /\ Position.avg_cost p' = 30000
    /\ Position.leverage p' = 10%Z
    /\ Position.side p' = Some SHORT.
Proof.
  apply (open_overwrites_unleveraged example_constants no_quote 0
           example_spot_session "BTC/USDT" "Bitcoin" SHORT LIMIT (Some 30000)
           2 10 30000 0
           (Position.mk 1 "BTC/USDT" "Bitcoin" "CRYPTO" 3 3 20000 1 None 0 None)).
  - right; reflexivity.
  - split; [cbn; lia | vm_compute; discriminate].
  - reflexivity.
  - vm_compute; discriminate.
  - reflexivity.
  - left; reflexivity.
Defined.


(** ** Market orders and the price oracle *)

(** When the oracle raises or returns [None], a crypto order that needs a
    quote is turned down before anything is written: the session is left
    exactly as it was. *)
Lemma unpriced_crypto_order_raises (K : Crypto.Constants) (oracle : Oracle)
    (now : Q) (s : Session) (symbol name : string) (side : Side)
    (quantity : Q) (leverage : Z) :
  oracle symbol "CRYPTO" = QuoteRaises \/ oracle symbol "CRYPTO" = QuoteNone ->
  exists e,
    Crypto.place_and_execute_crypto K oracle now symbol name side MARKET None
      quantity leverage s = (Raise e, s).
Proof.
  intro Hq. unfold Crypto.place_and_execute_crypto. run_exec.
  destruct ((leverage <? 1)%Z || (Crypto.CRYPTO_MAX_LEVERAGE K <? leverage)%Z);
    cbn; [eexists; reflexivity|].
  destruct (Qltb quantity (Crypto.CRYPTO_MIN_ORDER_QUANTITY K));
    cbn; [eexists; reflexivity|].
  destruct Hq as [Hq | Hq]; rewrite Hq; cbn; eexists; reflexivity.
Qed.

(** C6 (what the code does).  With an oracle that returns zero, a MARKET
    order is not turned down.  The crypto executor fills a 10x LONG of 2 BTC
    at price 0: the order is FILLED with price 0, the cash is untouched and
    the account holds 2 BTC at an average cost of 0.  The A-share executor
    fills a MARKET BUY of 100 shares at price 0 for the minimum commission
    of 5. *)
Theorem zero_quote_market_order_fills :
  (exists o s',
     Crypto.place_and_execute_crypto example_constants zero_quote 0 "BTC/USDT"
       "Bitcoin" LONG MARKET None 2 10 example_account = (Ok o, s')
     /\ Order.status o = FILLED
     /\ Order.price o = Some 0
     /\ Account.current_cash (account s') == 100000
     /\ positions s' =
          [Position.mk 1 "BTC/USDT" "Bitcoin" "CRYPTO" 2 2 0 10 (Some LONG) 0
             (Some 0)])
  /\ (exists o s',
        AStock.place_and_execute_astock zero_quote "600000" "SPDB" BUY MARKET
          None 100 false example_account = (Ok o, s')
        /\ Order.status o = FILLED
        /\ Order.price o = Some 0
        /\ Account.current_cash (account s') == 99995
        /\ positions s' = [new_position 1 "600000" "SPDB" "ASTOCK" 100 100 0 1]).
Proof.
  split.
  - do 2 eexists. split; [vm_compute; reflexivity|].
    repeat split; reflexivity.
  - do 2 eexists. split; [vm_compute; reflexivity|].
    repeat split; reflexivity.
Qed.

(** The MT5 executor falls back on the caller's price when the oracle has
    none: a MARKET BUY sent with price 10 while the oracle returns [None] is
    filled at 10. *)
Lemma mt5_market_order_falls_back :
  exists o s',
    MT5.place_and_execute_mt5_order (fun _ => QuoteNone) "600000" "SPDB" BUY
      MARKET (Some 10) 100 false "CN" example_account = (Ok o, s')
    /\ Order.status o = FILLED /\ Order.price o = Some 10.
Proof.
  do 2 eexists. split; [vm_compute; reflexivity|]. split; reflexivity.
Qed.

(** ** What a rejected order leaves behind *)

Section Keeps.

Context {B : Type} (proj : Session -> B).

Lemma keeps_ret {A} (a : A) : keeps proj (ret a).
Proof. intro s. reflexivity. Qed.

Lemma keeps_raise {A} (e : error) : keeps proj (@raise A e).
Proof. intro s. reflexivity. Qed.

Lemma keeps_lift {A} (r : result A) : keeps proj (lift r).
Proof. intro s. reflexivity. Qed.

Lemma keeps_get : keeps proj get.
Proof. intro s. reflexivity. Qed.

Lemma keeps_raise_if (b : bool) (e : error) : keeps proj (raise_if b e).
Proof. intro s. destruct b; reflexivity. Qed.

Lemma keeps_decimal_div (a b : Q) : keeps proj (decimal_div a b).
Proof. intro s. unfold decimal_div. destruct (Qeq_bool b 0); reflexivity. Qed.

Lemma keeps_bind {A C} (c : Exec A) (k : A -> Exec C) :
  keeps proj c -> (forall a, keeps proj (k a)) -> keeps proj (bind c k).
Proof.
  intros Hc Hk s. unfold bind. specialize (Hc s).
  destruct (c s) as [[a | e] s1]; cbn in *.
  - rewrite <- Hc. apply Hk.
  - exact Hc.
Qed.

End Keeps.

Lemma keeps_orders_set_account (a : Account.t) : keeps orders (set_account a).
Proof. intro s. reflexivity. Qed.

Lemma keeps_orders_set_positions (ps : list Position.t) :
  keeps orders (set_positions ps).
Proof. intro s. reflexivity. Qed.

Lemma keeps_orders_add_trade (t : Trade.t) : keeps orders (add_trade t).
Proof. intro s. reflexivity. Qed.

Lemma keeps_orders_update_position (i : nat) (f : Position.t -> Position.t) :
  keeps orders (update_position i f).
Proof. intro s. reflexivity. Qed.

Lemma keeps_orders_add_position (p : Position.t) :
  keeps orders (add_position p).
Proof. intro s. reflexivity. Qed.

(** Walks through a computation built from the operations above. *)
Ltac keeps_orders_tac :=
  repeat first
    [ apply keeps_ret | apply keeps_raise | apply keeps_lift | apply keeps_get
    | apply keeps_raise_if | apply keeps_decimal_div
    | apply keeps_orders_set_account | apply keeps_orders_set_positions
    | apply keeps_orders_add_trade | apply keeps_orders_update_position
    | apply keeps_orders_add_position
    | apply keeps_bind; [| intro]
    | match goal with
      | |- keeps _ (if ?b then _ else _) => destruct b
      | |- keeps _ (match ?x with _ => _ end) => destruct x
      end ].

Lemma open_position_keeps_orders (K : Crypto.Constants) (now : Q)
    (symbol name : string) (side : Side)
    (exec_price notional taker_fee quantity : Q) (leverage : Z)
    (pos : option (nat * Position.t)) :
  keeps orders (Crypto.open_position K now symbol name side exec_price notional
                  taker_fee quantity leverage pos).
Proof.
  unfold Crypto.open_position, Crypto.charge_interest. keeps_orders_tac.
Qed.

Lemma close_position_keeps_orders (K : Crypto.Constants) (now : Q)
    (side : Side) (notional taker_fee quantity : Q)
    (pos : option (nat * Position.t)) :
  keeps orders (Crypto.close_position K now side notional taker_fee quantity pos).
Proof.
  unfold Crypto.close_position, Crypto.charge_interest. keeps_orders_tac.
Qed.








(** ** Closing more than is held *)



Section CloseFacts.

Variable K : Crypto.Constants.




End CloseFacts.




(** ** Opening against an opposite position *)

Section ConflictFacts.

Variable K : Crypto.Constants.



End ConflictFacts.




(** ** The margin sweep *)

Lemma pos_matches_key (aid : Z) (sym mkt : string) (p : Position.t) :
  pos_matches aid sym mkt p = true <-> position_key p = (aid, sym, mkt).
Proof.
  unfold pos_matches, position_key.
  rewrite !andb_true_iff, Z.eqb_eq, !String.eqb_eq. split.
  - intros [[H1 H2] H3]. congruence.
  - intro H. inversion H. repeat split.
Qed.









Section SweepFacts.

Variable K : Crypto.Constants.
Variable fees : string -> Side -> Q -> Q -> Q.
Variable oracle : Oracle.
Variable now : Q.









End SweepFacts.


(** At time 0 no interest is due and the sweep does close the position of
    [margin_call_session]. *)
Lemma margin_call_session_closed_at_once :
  exists s' o p',
    Scheduler._check_account_margin example_constants example_fees
      falling_quote 0 margin_call_session = (Ok tt, s')
    /\ orders s' = [o] /\ Order.status o = FILLED
    /\ positions s' = [p']
    /\ Position.quantity p' == 0 /\ Position.side p' = None.
Proof.
  do 3 eexists. split; [vm_compute; reflexivity|].
  repeat split; reflexivity.
Qed.


(** * Further properties of the executors *)

(** ** Orders turned down before anything is written *)

(** An A-share order whose quantity is not a multiple of 100 or is below 100
    (150, 0 and negative quantities included) raises before the price is
    looked up and before the order row is created: the session is exactly as
    it was. *)
Theorem astock_bad_quantity_leaves_session (oracle : Oracle)
    (symbol name : string) (side : Side) (order_type : OrderType)
    (price : option Q) (quantity : Z) (use_ths : bool) (s : Session) :
  ~ valid_astock_order quantity ->
  exists e,
    AStock.place_and_execute_astock oracle symbol name side order_type price
      quantity use_ths s = (Raise e, s)
    /\ (e = InvalidLotMultiple \/ e = QuantityBelowMinimum).
Proof.
  intro Hbad. unfold AStock.place_and_execute_astock. run_exec.
  destruct (Z.eqb_spec (quantity mod AStock.ASTOCK_LOT_SIZE) 0) as [Hlot | Hlot];
    cbn; [|eexists; split; [reflexivity | left; reflexivity]].
  destruct (Z.ltb_spec quantity AStock.ASTOCK_MIN_ORDER_QUANTITY) as [Hmin | Hmin];
    cbn; [eexists; split; [reflexivity | right; reflexivity]|].
  exfalso. apply Hbad. split; assumption.
Qed.

Lemma astock_bad_quantity_leaves_session_witness :
  ~ valid_astock_order 150
  /\ exists e,
       AStock.place_and_execute_astock no_quote "600000" "SPDB" BUY LIMIT
         (Some 10) 150 false example_account = (Raise e, example_account)
       /\ (e = InvalidLotMultiple \/ e = QuantityBelowMinimum).
Proof.
  assert (H : ~ valid_astock_order 150).
  { intros [Hlot _]. vm_compute in Hlot. discriminate. }
  split; [exact H|].
  exact (astock_bad_quantity_leaves_session no_quote "600000" "SPDB" BUY LIMIT
           (Some 10) 150 false example_account H).
Defined.

(** A crypto order whose leverage is outside [1, CRYPTO_MAX_LEVERAGE] or
    whose quantity is below [CRYPTO_MIN_ORDER_QUANTITY] raises before the
    price is looked up and before the order row is created: the session is
    exactly as it was. *)
Theorem crypto_bad_order_leaves_session (K : Crypto.Constants)
    (oracle : Oracle) (now : Q) (symbol name : string) (side : Side)
    (order_type : OrderType) (price : option Q) (quantity : Q) (leverage : Z)
    (s : Session) :
  ~ valid_crypto_order K quantity leverage ->
  exists e,
    Crypto.place_and_execute_crypto K oracle now symbol name side order_type
      price quantity leverage s = (Raise e, s)
    /\ (e = InvalidLeverage \/ e = QuantityBelowMinimum).
Proof.
  intro Hbad. unfold Crypto.place_and_execute_crypto. run_exec.
  destruct (Z.ltb_spec leverage 1) as [H1 | H1]; cbn;
    [eexists; split; [reflexivity | left; reflexivity]|].
  destruct (Z.ltb_spec (Crypto.CRYPTO_MAX_LEVERAGE K) leverage) as [H2 | H2];
    cbn; [eexists; split; [reflexivity | left; reflexivity]|].
  destruct (Qltb quantity (Crypto.CRYPTO_MIN_ORDER_QUANTITY K)) eqn:H3;
    cbn; [eexists; split; [reflexivity | right; reflexivity]|].
  exfalso. apply Hbad. apply Qltb_false in H3.
  split; [split|]; assumption.
Qed.

Lemma crypto_bad_order_leaves_session_witness :
  ~ valid_crypto_order example_constants 1 51
  /\ exists e,
       Crypto.place_and_execute_crypto example_constants no_quote 0 "BTC/USDT"
         "Bitcoin" LONG LIMIT (Some 30000) 1 51 example_account
       = (Raise e, example_account)
       /\ (e = InvalidLeverage \/ e = QuantityBelowMinimum).
Proof.
  assert (H : ~ valid_crypto_order example_constants 1 51).
  { intros [[_ Hmax] _]. cbn in Hmax. lia. }
  split; [exact H|].
  exact (crypto_bad_order_leaves_session example_constants no_quote 0
           "BTC/USDT" "Bitcoin" LONG LIMIT (Some 30000) 1 51 example_account H).
Defined.

(** ** A-share accounting *)

Lemma astock_checks_pass (quantity : Z) :
  valid_astock_order quantity ->
  negb (quantity mod AStock.ASTOCK_LOT_SIZE =? 0)%Z = false
  /\ (quantity <? AStock.ASTOCK_MIN_ORDER_QUANTITY)%Z = false.
Proof.
  intros [Hlot Hmin]. split.
  - rewrite Hlot. reflexivity.
  - apply Z.ltb_ge. exact Hmin.
Qed.



(** A BUY on a symbol not yet held creates the row with the bought quantity
    at the execution price; the cash goes down by notional plus
    commission. *)
Lemma astock_buy_opens_position (oracle : Oracle) (s : Session)
    (symbol name : string) (order_type : OrderType) (price : option Q)
    (quantity : Z) (use_ths : bool) (exec_price : Q) :
  let notional := exec_price * inject_Z quantity in
  let commission := fst (AStock._calc_astock_fee notional false) in
  valid_astock_order quantity ->
  AStock.exec_price_of oracle symbol order_type price = Ok exec_price ->
  first_position (Account.id (account s)) symbol "ASTOCK" (positions s) = None ->
  notional + commission <= Account.current_cash (account s) ->
  exists o s',
    AStock.place_and_execute_astock oracle symbol name BUY order_type price
      quantity use_ths s = (Ok o, s')
    /\ Order.status o = FILLED
    /\ Account.id (account s') = Account.id (account s)
    /\ Account.current_cash (account s') ==
         Account.current_cash (account s) - notional - commission
    /\ positions s' =
         positions s ++
         [new_position (Account.id (account s)) symbol name "ASTOCK"
            (inject_Z quantity) (inject_Z quantity) exec_price 1].
Proof.
  intros notional commission Hvalid Hp Hpos Hcash.
  destruct (astock_checks_pass _ Hvalid) as [Hv1 Hv2].
  assert (Hlt : Qltb (Account.current_cash (account s))
                  (notional + (commission + 0)) = false).
  { apply Qltb_false. lra. }
  subst notional commission.
  unfold AStock.place_and_execute_astock, AStock.execute_buy. run_exec.
  rewrite Hv1, Hv2, Hp. cbn. cbn in Hlt. rewrite Hlt. cbn.
  rewrite Hpos. cbn.
  do 2 eexists. split; [reflexivity|]. split; [reflexivity|]. cbn.
  split; [reflexivity|]. split; [ring | reflexivity].
Qed.

(* The accounting of a SELL that the holding covers. *)
Lemma astock_sell_accounting (oracle : Oracle) (s : Session)
    (symbol name : string) (order_type : OrderType) (price : option Q)
    (quantity : Z) (use_ths : bool) (exec_price : Q) (i : nat)
    (p : Position.t) :
  let notional := exec_price * inject_Z quantity in
  let commission := fst (AStock._calc_astock_fee notional true) in
  valid_astock_order quantity ->
  AStock.exec_price_of oracle symbol order_type price = Ok exec_price ->
  first_position (Account.id (account s)) symbol "ASTOCK" (positions s)
    = Some (i, p) ->
  inject_Z quantity <= Position.available_quantity p ->
  exists o s' p',
    AStock.place_and_execute_astock oracle symbol name SELL order_type price
      quantity use_ths s = (Ok o, s')
    /\ Order.status o = FILLED
    /\ Account.id (account s') = Account.id (account s)
    /\ Account.current_cash (account s') ==
         Account.current_cash (account s) + notional - commission
         - notional * AStock.ASTOCK_STAMP_TAX_RATE
    /\ nth_error (positions s') i = Some p'
    /\ Position.quantity p' = Position.quantity p - inject_Z quantity
    /\ Position.available_quantity p' =
         Position.available_quantity p - inject_Z quantity
    /\ Position.avg_cost p' = Position.avg_cost p
    /\ (forall k, k <> i ->
          nth_error (positions s') k = nth_error (positions s) k).
Proof.
  intros notional commission Hvalid Hp Hpos Hav.
  destruct (astock_checks_pass _ Hvalid) as [Hv1 Hv2].
  destruct (first_position_nth _ _ _ _ _ _ Hpos) as [Hnth _].
  apply Qltb_false in Hav.
  subst notional commission.
  unfold AStock.place_and_execute_astock, AStock.execute_sell. run_exec.
  rewrite Hv1, Hv2, Hp. cbn. rewrite Hpos. cbn. rewrite Hav. cbn.
  do 3 eexists. split; [reflexivity|]. split; [reflexivity|]. cbn.
  split; [reflexivity|]. split; [ring|].
  split; [apply nth_error_update_nth; exact Hnth|]. cbn.
  repeat split.
  intros k Hk. apply nth_error_update_nth_other. congruence.
Qed.

(** A SELL of no more than the available quantity takes the shares off the
    row's quantity and available quantity, leaves its average cost, and
    credits the notional less commission and 0.1% stamp tax; no other row
    changes. *)
Theorem astock_sell_reduces_position (oracle : Oracle) (s : Session)
    (symbol name : string) (order_type : OrderType) (price : option Q)
    (quantity : Z) (use_ths : bool) (exec_price : Q) (i : nat)
    (p : Position.t) :
  let notional := exec_price * inject_Z quantity in
  let commission := fst (AStock._calc_astock_fee notional true) in
  valid_astock_order quantity ->
  AStock.exec_price_of oracle symbol order_type price = Ok exec_price ->
  first_position (Account.id (account s)) symbol "ASTOCK" (positions s)
    = Some (i, p) ->
  inject_Z quantity <= Position.available_quantity p ->
  exists o s' p',
    AStock.place_and_execute_astock oracle symbol name SELL order_type price
      quantity use_ths s = (Ok o, s')
    /\ Order.status o = FILLED
    /\ Account.id (account s') = Account.id (account s)
    /\ Account.current_cash (account s') ==
         Account.current_cash (account s) + notional - commission
         - notional * AStock.ASTOCK_STAMP_TAX_RATE
    /\ nth_error (positions s') i = Some p'
    /\ Position.quantity p' = Position.quantity p - inject_Z quantity
    /\ Position.available_quantity p' =
         Position.available_quantity p - inject_Z quantity
    /\ Position.avg_cost p' = Position.avg_cost p
    /\ (forall k, k <> i ->
          nth_error (positions s') k = nth_error (positions s) k).
Proof.
  exact (astock_sell_accounting oracle s symbol name order_type price quantity use_ths exec_price i p).
Qed.

(** A BUY the cash cannot pay for (notional plus commission) raises the
    insufficient-cash error with the account, the positions and the trades
    untouched. *)
Theorem astock_buy_without_cash (oracle : Oracle) (s : Session)
    (symbol name : string) (order_type : OrderType) (price : option Q)
    (quantity : Z) (use_ths : bool) (exec_price : Q) :
  let notional := exec_price * inject_Z quantity in
  let commission := fst (AStock._calc_astock_fee notional false) in
  valid_astock_order quantity ->
  AStock.exec_price_of oracle symbol order_type price = Ok exec_price ->
  Account.current_cash (account s) < notional + commission ->
  exists s',
    AStock.place_and_execute_astock oracle symbol name BUY order_type price
      quantity use_ths s = (Raise InsufficientCash, s')
    /\ untouched s s'.
Proof.
  intros notional commission Hvalid Hp Hcash.
  destruct (astock_checks_pass _ Hvalid) as [Hv1 Hv2].
  assert (Hlt : Qltb (Account.current_cash (account s))
                  (notional + (commission + 0)) = true).
  { apply Qltb_true. lra. }
  subst notional commission.
  unfold AStock.place_and_execute_astock, AStock.execute_buy. run_exec.
  rewrite Hv1, Hv2, Hp. cbn. cbn in Hlt. rewrite Hlt. cbn.
  eexists. split; [reflexivity|]. repeat split.
Qed.


Lemma astock_sell_reduces_position_witness :
  exists o s' p',
    AStock.place_and_execute_astock no_quote "600000" "SPDB" SELL LIMIT
      (Some 10) 100 false astock_holding_session = (Ok o, s')
    /\ Order.status o = FILLED
    /\ Account.current_cash (account s') == 100000 + 10 * 100 - 5 - 1
    /\ nth_error (positions s') 0 = Some p'
    /\ Position.quantity p' = 200 - 100
    /\ Position.available_quantity p' = 200 - 100
    /\ Position.avg_cost p' = 8.
Proof.
  destruct (astock_sell_reduces_position no_quote astock_holding_session
              "600000" "SPDB" LIMIT (Some 10) 100 false 10 0
              (new_position 1 "600000" "SPDB" "ASTOCK" 200 200 8 1))
    as (o & s' & p' & H1 & H2 & _ & H3 & H4 & H5 & H6 & H7 & _).
  - split; [reflexivity | cbv; discriminate].
  - reflexivity.
  - reflexivity.
  - vm_compute; discriminate.
  - exists o, s', p'. repeat split;
      first [assumption | rewrite H3; vm_compute; reflexivity].
Defined.

Lemma astock_buy_without_cash_witness :
  exists s',
    AStock.place_and_execute_astock no_quote "600000" "SPDB" BUY LIMIT
      (Some 10) 100 false poor_account = (Raise InsufficientCash, s')
    /\ untouched poor_account s'.
Proof.
  apply (astock_buy_without_cash no_quote poor_account "600000" "SPDB" LIMIT
           (Some 10) 100 false 10).
  - split; [reflexivity | cbv; discriminate].
  - reflexivity.
  - vm_compute. reflexivity.
Defined.

(** Buying [quantity] shares of a symbol not held and selling them again at
    the same price costs the two commissions and the stamp tax of the sale;
    the row stays in the table with quantity 0. *)
Theorem astock_round_trip (oracle : Oracle) (s : Session)
    (symbol name : string) (order_type order_type2 : OrderType)
    (price price2 : option Q) (quantity : Z) (use_ths : bool)
    (exec_price : Q) :
  let notional := exec_price * inject_Z quantity in
  let commission := fst (AStock._calc_astock_fee notional false) in
  valid_astock_order quantity ->
  AStock.exec_price_of oracle symbol order_type price = Ok exec_price ->
  AStock.exec_price_of oracle symbol order_type2 price2 = Ok exec_price ->
  first_position (Account.id (account s)) symbol "ASTOCK" (positions s) = None ->
  notional + commission <= Account.current_cash (account s) ->
  exists o1 s1 o2 s2 p2,
    AStock.place_and_execute_astock oracle symbol name BUY order_type price
      quantity use_ths s = (Ok o1, s1)
    /\ AStock.place_and_execute_astock oracle symbol name SELL order_type2
         price2 quantity use_ths s1 = (Ok o2, s2)
    /\ Account.current_cash (account s2) - Account.current_cash (account s)
       == - (commission + commission + notional * AStock.ASTOCK_STAMP_TAX_RATE)
    /\ nth_error (positions s2) (List.length (positions s)) = Some p2
    /\ Position.quantity p2 == 0
    /\ Position.available_quantity p2 == 0.
Proof.
  intros notional commission Hvalid Hp Hp2 Hpos Hcash.
  destruct (astock_buy_opens_position oracle s symbol name order_type price
              quantity use_ths exec_price Hvalid Hp Hpos Hcash)
    as (o1 & s1 & Hrun1 & _ & Hid1 & Hcash1 & Hps1).
  assert (Hfirst : first_position (Account.id (account s1)) symbol "ASTOCK"
                     (positions s1)
                   = Some (List.length (positions s),
                           new_position (Account.id (account s)) symbol name
                             "ASTOCK" (inject_Z quantity) (inject_Z quantity)
                             exec_price 1)).
  { rewrite Hid1, Hps1. apply first_position_app_new; [exact Hpos|].
    apply pos_matches_refl. }
  destruct (astock_sell_accounting oracle s1 symbol name order_type2
              price2 quantity use_ths exec_price _ _ Hvalid Hp2 Hfirst
              (Qle_refl _))
    as (o2 & s2 & p2 & Hrun2 & _ & _ & Hcash2 & Hnth2 & Hq2 & Ha2 & _).
  exists o1, s1, o2, s2, p2.
  split; [exact Hrun1|]. split; [exact Hrun2|].
  split.
  { rewrite Hcash2, Hcash1. subst notional commission. cbn. ring. }
  split; [exact Hnth2|].
  rewrite Hq2, Ha2. cbn. split; ring.
Qed.

Lemma astock_round_trip_witness :
  exists o1 s1 o2 s2 p2,
    AStock.place_and_execute_astock no_quote "600000" "SPDB" BUY LIMIT
      (Some 10) 100 false example_account = (Ok o1, s1)
    /\ AStock.place_and_execute_astock no_quote "600000" "SPDB" SELL LIMIT
         (Some 10) 100 false s1 = (Ok o2, s2)
    /\ Account.current_cash (account s2)
       - Account.current_cash (account example_account) == - (5 + 5 + 1)
    /\ nth_error (positions s2) 0 = Some p2
    /\ Position.quantity p2 == 0
    /\ Position.available_quantity p2 == 0.
Proof.
  destruct (astock_round_trip no_quote example_account "600000" "SPDB" LIMIT
              LIMIT (Some 10) (Some 10) 100 false 10)
    as (o1 & s1 & o2 & s2 & p2 & H1 & H2 & H3 & H4 & H5 & H6).
  - split; [reflexivity | cbv; discriminate].
  - reflexivity.
  - reflexivity.
  - reflexivity.
  - vm_compute; discriminate.
  - exists o1, s1, o2, s2, p2. repeat split;
      first [assumption | rewrite H3; vm_compute; reflexivity].
Defined.

(** Whatever the account held before, a filled BUY leaves a cash balance
    that is not negative. *)
Theorem astock_filled_buy_keeps_cash_nonnegative (oracle : Oracle)
    (s s' : Session) (symbol name : string) (order_type : OrderType)
    (price : option Q) (quantity : Z) (use_ths : bool) (o : Order.t) :
  AStock.place_and_execute_astock oracle symbol name BUY order_type price
    quantity use_ths s = (Ok o, s') ->
  0 <= Account.current_cash (account s').
Proof.
  intro H. unfold AStock.place_and_execute_astock, AStock.execute_buy in H.
  run_exec_in H.
  destruct (negb (quantity mod AStock.ASTOCK_LOT_SIZE =? 0)%Z);
    cbn in H; [discriminate|].
  destruct (quantity <? AStock.ASTOCK_MIN_ORDER_QUANTITY)%Z;
    cbn in H; [discriminate|].
  destruct (AStock.exec_price_of oracle symbol order_type price) as [P|];
    cbn in H; [|discriminate].
  match type of H with
  | context [if Qltb ?a ?b then _ else _] =>
      destruct (Qltb a b) eqn:Hlt
  end; cbn in H; [discriminate|].
  apply Qltb_false in Hlt.
  destruct (first_position (Account.id (account s)) symbol "ASTOCK" (positions s))
    as [[i p]|]; cbn in H.
  - destruct (Qeq_bool (Position.quantity p + inject_Z quantity) 0);
      cbn in H; [discriminate|].
    inversion H; subst; cbn. lra.
  - inversion H; subst; cbn. lra.
Qed.

Lemma astock_filled_buy_keeps_cash_nonnegative_witness :
  0 <= Account.current_cash
         (account (snd (AStock.place_and_execute_astock no_quote "600000"
                          "SPDB" BUY LIMIT (Some 10) 100 false
                          example_account))).
Proof.
  eapply (astock_filled_buy_keeps_cash_nonnegative no_quote example_account
            _ "600000" "SPDB" LIMIT (Some 10) 100 false).
  vm_compute. reflexivity.
Defined.

(** ** Closing leveraged positions *)

Section CloseAccounting.

Variable K : Crypto.Constants.





(** An order on the side that does not close the position held never fills:
    a SELL against a leveraged position that is not LONG, a BUY against a
    leveraged position that is not SHORT, and a BUY against a position of
    leverage 1 or less (which only a SELL can reduce) all raise. *)
Theorem wrong_side_close_never_fills (oracle : Oracle) (now : Q) (s : Session)
    (symbol name : string) (side : Side) (order_type : OrderType)
    (price : option Q) (quantity : Q) (leverage : Z) (i : nat)
    (p : Position.t) :
  first_position (Account.id (account s)) symbol "CRYPTO" (positions s)
    = Some (i, p) ->
  (side = SELL /\ (1 < Position.leverage p)%Z /\ Position.side p <> Some LONG)
  \/ (side = BUY /\ (1 < Position.leverage p)%Z
       /\ Position.side p <> Some SHORT)
  \/ (side = BUY /\ (Position.leverage p <= 1)%Z) ->
  exists e s',
    Crypto.place_and_execute_crypto K oracle now symbol name side order_type
      price quantity leverage s = (Raise e, s')
    /\ (valid_crypto_order K quantity leverage ->
        (exists exec_price,
           Crypto.exec_price_of oracle symbol order_type price = Ok exec_price) ->
        ~ Position.quantity p == 0 ->
        (0 < Crypto._calculate_position_interest K now p ->
         Crypto._calculate_position_interest K now p
           <= Account.current_cash (account s)) ->
        e = SideMismatch \/ e = OnlySellSpot).
Proof.
  intros Hpos Hcase.
  assert (Hwrong :
    (1 <? Position.leverage p)%Z = true
    /\ (Side_eqb side SELL && negb (Crypto.side_is p LONG)
        || Side_eqb side BUY && negb (Crypto.side_is p SHORT)) = true
    \/ (1 <? Position.leverage p)%Z = false /\ Side_eqb side SELL = false).
  { unfold Crypto.side_is.
    destruct Hcase as [(-> & Hl & Hs) | [(-> & Hl & Hs) | (-> & Hl)]].
    - left. split; [apply Z.ltb_lt; exact Hl|].
      destruct (Position.side p) as [[]|]; try reflexivity; congruence.
    - left. split; [apply Z.ltb_lt; exact Hl|].
      destruct (Position.side p) as [[]|]; try reflexivity; congruence.
    - right. split; [apply Z.ltb_ge; exact Hl | reflexivity]. }
  assert (Hside : side = BUY \/ side = SELL).
  { destruct Hcase as [(-> & _) | [(-> & _) | (-> & _)]]; auto. }
  unfold Crypto.place_and_execute_crypto. run_exec.
  destruct ((leverage <? 1)%Z || (Crypto.CRYPTO_MAX_LEVERAGE K <? leverage)%Z)
    eqn:Hv1; cbn.
  { do 2 eexists. split; [reflexivity|]. intros Hv.
    destruct (valid_crypto_order_checks _ _ _ Hv). congruence. }
  destruct (Qltb quantity (Crypto.CRYPTO_MIN_ORDER_QUANTITY K)) eqn:Hv2; cbn.
  { do 2 eexists. split; [reflexivity|]. intros Hv.
    destruct (valid_crypto_order_checks _ _ _ Hv). congruence. }
  destruct (Crypto.exec_price_of oracle symbol order_type price) as [P|] eqn:Hp;
    cbn.
  2:{ do 2 eexists. split; [reflexivity|]. intros _ [P HP]. discriminate. }
  rewrite Hpos. unfold Crypto.close_position, Crypto.charge_interest.
  assert (Hbody : exists e s',
    (match side with
     | LONG | SHORT => fun _ : Session => (Raise InvalidSide, s)
     | OTHER => fun _ => (Raise InvalidSide, s)
     | _ =>
         Crypto.close_position K now side (P * quantity)
           (Crypto._calc_crypto_fee K (P * quantity) leverage) quantity
           (Some (i, p))
     end) (mkSession (account s) (positions s)
             (orders s ++
              [Order.mk (Account.id (account s)) symbol name "CRYPTO" side
                 order_type (Some P) quantity leverage 0 PENDING])
             (trades s)) = (Raise e, s')
    /\ (~ Position.quantity p == 0 ->
        (0 < Crypto._calculate_position_interest K now p ->
         Crypto._calculate_position_interest K now p
           <= Account.current_cash (account s)) ->
        e = SideMismatch \/ e = OnlySellSpot)).
  { unfold Crypto.close_position, Crypto.charge_interest.
    destruct Hside; subst side; run_exec;
      destruct (Qeq_bool (Position.quantity p) 0) eqn:Hq0; cbn;
      try (do 2 eexists; split; [reflexivity|]; intros Hq _;
           apply Qeq_bool_iff in Hq0; contradiction);
      destruct (Qltb 0 (Crypto._calculate_position_interest K now p)) eqn:Hi;
      cbn;
      try (destruct (Qltb (Account.current_cash (account s))
                       (Crypto._calculate_position_interest K now p)) eqn:Hc;
           cbn;
           [ do 2 eexists; split; [reflexivity|]; intros _ Hcov;
             apply Qltb_true in Hi; apply Qltb_true in Hc;
             specialize (Hcov Hi); exfalso;
             exact (Qlt_not_le _ _ Hc Hcov) |]);
      destruct Hwrong as [[Hl Hw] | [Hl Hw]]; cbn in Hw;
      rewrite ?Hl, ?Hw; cbn; try discriminate;
      do 2 eexists; split; try reflexivity; intros _ _; auto. }
  destruct Hbody as (e & s' & Hbody & He).
  destruct Hside; subst side; cbn in Hbody |- *;
    unfold Crypto.close_position, Crypto.charge_interest in Hbody |- *;
    run_exec_in Hbody; run_exec; rewrite Hbody;
    (exists e, s'; split; [reflexivity|]; intros _ _; exact He).
Qed.

End CloseAccounting.



Lemma wrong_side_close_never_fills_witness :
  exists e s',
    Crypto.place_and_execute_crypto example_constants no_quote 0 "BTC/USDT"
      "Bitcoin" SELL LIMIT (Some 29000) 1 1 short_session = (Raise e, s')
    /\ (e = SideMismatch \/ e = OnlySellSpot).
Proof.
  destruct (wrong_side_close_never_fills example_constants no_quote 0
              short_session "BTC/USDT" "Bitcoin" SELL LIMIT (Some 29000) 1 1 0
              (Position.mk 1 "BTC/USDT" "Bitcoin" "CRYPTO" 2 2 30000 10
                 (Some SHORT) 0 (Some 0)) eq_refl)
    as (e & s' & Hrun & He).
  - left. split; [reflexivity|]. split; [cbn; lia | discriminate].
  - exists e, s'. split; [exact Hrun|]. apply He.
    + split; [cbn; lia | vm_compute; discriminate].
    + exists 29000. reflexivity.
    + vm_compute; discriminate.
    + intro Hi. vm_compute in Hi. discriminate.
Defined.

(** ** Adding to a leveraged position *)



Section AddAccounting.

Variable K : Crypto.Constants.


End AddAccounting.


(** ** The audit trail of a filled order *)

(** Walks through a computation that never writes the component [proj]. *)
Ltac keeps_tac :=
  repeat first
    [ apply keeps_bind; [| intro]
    | apply keeps_raise_if | apply keeps_decimal_div
    | match goal with
      | |- keeps _ (if ?b then _ else _) => destruct b
      | |- keeps _ (match ?x with _ => _ end) => destruct x
      end
    | solve [intro; reflexivity] ].

Lemma open_position_keeps_trades (K : Crypto.Constants) (now : Q)
    (symbol name : string) (side : Side)
    (exec_price notional taker_fee quantity : Q) (leverage : Z)
    (pos : option (nat * Position.t)) :
  keeps trades (Crypto.open_position K now symbol name side exec_price notional
                  taker_fee quantity leverage pos).
Proof.
  unfold Crypto.open_position, Crypto.charge_interest, update_position,
    add_position. keeps_tac.
Qed.

Lemma close_position_keeps_trades (K : Crypto.Constants) (now : Q)
    (side : Side) (notional taker_fee quantity : Q)
    (pos : option (nat * Position.t)) :
  keeps trades (Crypto.close_position K now side notional taker_fee quantity pos).
Proof.
  unfold Crypto.close_position, Crypto.charge_interest, update_position.
  keeps_tac.
Qed.





(** A filled crypto execution appends exactly one order, FILLED for its whole
    quantity at the execution price, and exactly one trade, which points at
    that order and records the same side, price and quantity and the taker
    fee; the earlier orders and trades are untouched. *)
Theorem crypto_fill_audit_trail (K : Crypto.Constants) (oracle : Oracle)
    (now : Q) (symbol name : string) (side : Side) (order_type : OrderType)
    (price : option Q) (quantity : Q) (leverage : Z) (s s' : Session)
    (o : Order.t) :
  Crypto.place_and_execute_crypto K oracle now symbol name side order_type
    price quantity leverage s = (Ok o, s') ->
  exists exec_price t,
    Crypto.exec_price_of oracle symbol order_type price = Ok exec_price
    /\ orders s' = orders s ++ [o]
    /\ trades s' = trades s ++ [t]
    /\ Order.status o = FILLED
    /\ Order.price o = Some exec_price
    /\ Order.quantity o = quantity
    /\ Order.filled_quantity o = quantity
    /\ Order.side o = side
    /\ Trade.order_id t = List.length (orders s)
    /\ Trade.side t = side
    /\ Trade.price t = exec_price
    /\ Trade.quantity t = quantity
    /\ Trade.commission t = Crypto._calc_crypto_fee K (exec_price * quantity) leverage.
Proof.
  intro H. unfold Crypto.place_and_execute_crypto in H. run_exec_in H.
  destruct ((leverage <? 1)%Z || (Crypto.CRYPTO_MAX_LEVERAGE K <? leverage)%Z);
    cbn in H; [discriminate|].
  destruct (Qltb quantity (Crypto.CRYPTO_MIN_ORDER_QUANTITY K));
    cbn in H; [discriminate|].
  destruct (Crypto.exec_price_of oracle symbol order_type price)
    as [exec_price | e0]; cbn in H; [|discriminate].
  match type of H with
  | (let (_, _) := ?body ?s1 in _) = _ =>
      assert (Hk : orders (snd (body s1)) = orders s1
                   /\ trades (snd (body s1)) = trades s1);
      [ destruct side;
        first [ split; [apply open_position_keeps_orders
                       | apply open_position_keeps_trades]
              | split; [apply close_position_keeps_orders
                       | apply close_position_keeps_trades]
              | split; reflexivity ]
      | destruct (body s1) as [[ic | e1] s2] eqn:Hbody ]
  end; cbn in Hk, H; [|discriminate].
  destruct Hk as [Hko Hkt].
  inversion H; subst; clear H. cbn.
  rewrite Hko, Hkt, update_nth_app_last.
  do 2 eexists. repeat split.
Qed.

Lemma crypto_fill_audit_trail_witness :
  exists exec_price t,
    Crypto.exec_price_of no_quote "BTC/USDT" LIMIT (Some 30000) = Ok exec_price
    /\ orders long_session = orders example_account
         ++ [Order.mk 1 "BTC/USDT" "Bitcoin" "CRYPTO" LONG LIMIT (Some 30000)
               1 10 1 FILLED]
    /\ trades long_session = trades example_account ++ [t]
    /\ Trade.order_id t = 0%nat
    /\ Trade.price t = exec_price.
Proof.
  destruct (crypto_fill_audit_trail example_constants no_quote 0 "BTC/USDT"
              "Bitcoin" LONG LIMIT (Some 30000) 1 10 example_account
              long_session
              (Order.mk 1 "BTC/USDT" "Bitcoin" "CRYPTO" LONG LIMIT (Some 30000)
                 1 10 1 FILLED))
    as (P & t & H1 & H2 & H3 & _ & _ & _ & _ & _ & H4 & _ & H5 & _).
  - vm_compute. reflexivity.
  - exists P, t. repeat split; assumption.
Defined.



(** ** Valuation of a book *)


Lemma sum_notional_app (oracle : Oracle) (l1 l2 : list Position.t) (total : Q) :
  AssetCalculator.sum_notional oracle total (l1 ++ l2) =
  AssetCalculator.sum_notional oracle
    (AssetCalculator.sum_notional oracle total l1) l2.
Proof.
  revert total. induction l1 as [|p r IH]; intro total; cbn; [reflexivity|].
  destruct (AssetCalculator.position_notional oracle p); apply IH.
Qed.


(** A row of another account, or a row whose symbol has no quote (the
    oracle fails or returns nothing), adds nothing to either valuation:
    the totals are those of the table without it. *)
Theorem valuations_skip_uncounted_rows (oracle : Oracle)
    (before after : list Position.t) (p : Position.t) (account_id : Z) :
  not_counted oracle account_id p ->
  Valuation.calc_positions_market_value oracle (before ++ p :: after) account_id
    = Valuation.calc_positions_market_value oracle (before ++ after) account_id
  /\ AssetCalculator.calc_positions_value oracle (before ++ p :: after) account_id
     = AssetCalculator.calc_positions_value oracle (before ++ after) account_id.
Proof.
  intro H.
  unfold Valuation.calc_positions_market_value,
    AssetCalculator.calc_positions_value.
  rewrite !filter_app. cbn.
  destruct (Z.eqb_spec (Position.account_id p) account_id) as [Ha|Ha];
    [|split; reflexivity].
  rewrite !sum_equity_app, !sum_notional_app. cbn.
  unfold Valuation.position_equity, AssetCalculator.position_notional.
  destruct H as [H | [H | H]]; [contradiction| |]; rewrite H; split; reflexivity.
Qed.

Lemma valuations_skip_uncounted_rows_witness :
  Valuation.calc_positions_market_value btc_only_quote
    ([example_long] ++ new_position 1 "ETH/USDT" "Ether" "CRYPTO" 5 5 2000 1 :: [])
    1
  = Valuation.calc_positions_market_value btc_only_quote ([example_long] ++ []) 1
  /\ AssetCalculator.calc_positions_value btc_only_quote
       ([example_long] ++ new_position 1 "ETH/USDT" "Ether" "CRYPTO" 5 5 2000 1 :: [])
       1
     = AssetCalculator.calc_positions_value btc_only_quote ([example_long] ++ []) 1.
Proof.
  apply (valuations_skip_uncounted_rows btc_only_quote [example_long] []
           (new_position 1 "ETH/USDT" "Ether" "CRYPTO" 5 5 2000 1) 1).
  right. right. reflexivity.
Defined.



(** ** The margin monitor on a healthy account *)

Section HealthyAccount.

Variable K : Crypto.Constants.
Variable fees : string -> Side -> Q -> Q -> Q.
Variable oracle : Oracle.

Lemma sum_pnl_with_cash (cash : Q) (s : Session) :
  monitored_equity oracle (with_cash cash s)
  == cash + (monitored_equity oracle s - Account.current_cash (account s))
  /\ Account.margin_used (account (with_cash cash s))
     = Account.margin_used (account s)
  /\ Account.maintenance_margin_ratio (account (with_cash cash s))
     = Account.maintenance_margin_ratio (account s).
Proof.
  destruct s as [[aid c m r] ps os ts].
  unfold monitored_equity, with_cash; cbn.
  split; [ring|split; reflexivity].
Qed.

Lemma margin_call_iff (s : Session) :
  0 < Account.margin_used (account s) ->
  Scheduler.margin_call oracle s = true
  <-> monitored_equity oracle s
      < Account.maintenance_margin_ratio (account s)
        * Account.margin_used (account s).
Proof.
  intro Hm. unfold Scheduler.margin_call, monitored_equity.
  rewrite Qltb_true.
  set (e := Account.current_cash (account s) + _).
  set (m := Account.margin_used (account s)) in *.
  set (r := Account.maintenance_margin_ratio (account s)).
  split; intro H.
  - apply (Qmult_lt_r _ _ m Hm) in H.
    assert (He : e / m * m == e) by (field; lra).
    rewrite He in H. exact H.
  - apply (Qmult_lt_r _ _ m Hm).
    assert (He : e / m * m == e) by (field; lra).
    rewrite He. exact H.
Qed.

(** The monitor leaves an account exactly as it found it, without placing
    an order, when the account has no margin in use, or when its equity
    (cash plus the unrealized profit of its open leveraged positions) is at
    least [maintenance_margin_ratio * margin_used]. *)
Theorem healthy_account_untouched (now : Q) (s : Session) :
  Account.margin_used (account s) <= 0
  \/ Account.maintenance_margin_ratio (account s)
     * Account.margin_used (account s) <= monitored_equity oracle s ->
  Scheduler._check_account_margin K fees oracle now s = (Ok tt, s).
Proof.
  intro H. unfold Scheduler._check_account_margin. run_exec.
  destruct (Scheduler.select _ 0 (positions s)); [reflexivity|].
  destruct (Qle_bool (Account.margin_used (account s)) 0) eqn:Hm;
    [reflexivity|].
  assert (Hpos : 0 < Account.margin_used (account s)).
  { apply Qnot_le_lt. intro Hle. apply Qle_bool_iff in Hle. congruence. }
  destruct H as [H | H]; [lra|].
  destruct (Scheduler.margin_call oracle s) eqn:Hc; [|reflexivity].
  apply (margin_call_iff s Hpos) in Hc. lra.
Qed.

(** Adding cash to an account that is not in margin call never puts it in
    margin call. *)
Theorem more_cash_no_margin_call (cash : Q) (s : Session) :
  0 < Account.margin_used (account s) ->
  Account.current_cash (account s) <= cash ->
  Scheduler.margin_call oracle s = false ->
  Scheduler.margin_call oracle (with_cash cash s) = false.
Proof.
  intros Hm Hc Hcall.
  destruct (sum_pnl_with_cash cash s) as (He & Hmu & Hr).
  apply not_true_iff_false. intro H.
  apply margin_call_iff in H; [|rewrite Hmu; exact Hm].
  rewrite He, Hmu, Hr in H.
  apply not_true_iff_false in Hcall. apply Hcall.
  apply (margin_call_iff s Hm). lra.
Qed.

End HealthyAccount.

Lemma healthy_account_untouched_witness :
  Scheduler._check_account_margin example_constants example_fees
    (fun _ _ => QuotePrice 31000) 3600 margin_call_session
  = (Ok tt, margin_call_session).
Proof.
  apply (healthy_account_untouched example_constants example_fees
           (fun _ _ => QuotePrice 31000) 3600 margin_call_session).
  right. vm_compute. discriminate.
Defined.

Lemma more_cash_no_margin_call_witness :
  Scheduler.margin_call (fun _ _ => QuotePrice 31000)
    (with_cash 5000 margin_call_session) = false.
Proof.
  apply (more_cash_no_margin_call (fun _ _ => QuotePrice 31000) 5000
           margin_call_session).
  - vm_compute. reflexivity.
  - vm_compute. discriminate.
  - vm_compute. reflexivity.
Defined.

(** ** One row per (account, symbol, market) *)

Lemma first_position_none_notin (aid : Z) (sym mkt : string)
    (ps : list Position.t) :
  first_position aid sym mkt ps = None ->
  ~ In (aid, sym, mkt) (map position_key ps).
Proof.
  induction ps as [|q r IH]; cbn; intros H Hin; [exact Hin|].
  destruct (pos_matches aid sym mkt q) eqn:Hq; [discriminate|].
  destruct (first_position aid sym mkt r) as [[j q']|]; [discriminate|].
  destruct Hin as [Hin | Hin].
  - apply pos_matches_key in Hin. congruence.
  - exact (IH eq_refl Hin).
Qed.

Lemma NoDup_snoc {A} (l : list A) (x : A) :
  NoDup l -> ~ In x l -> NoDup (l ++ [x]).
Proof.
  induction 1 as [|y l Hy Hnd IH]; cbn; intro Hx.
  - constructor; [intros []|constructor].
  - constructor.
    + rewrite in_app_iff. intros [H | [H | []]]; [exact (Hy H)|].
      apply Hx. left. symmetry. exact H.
    + apply IH. intro H. apply Hx. right. exact H.
Qed.

Lemma grows_by_key_unique (aid : Z) (symbol market : string)
    (ps ps' : list Position.t) :
  grows_by_key aid symbol market ps ps' ->
  NoDup (map position_key ps) -> NoDup (map position_key ps').
Proof.
  intros [H | [Hnone H]] Hnd; rewrite H; [exact Hnd|].
  apply NoDup_snoc; [exact Hnd|].
  apply first_position_none_notin. exact Hnone.
Qed.

Lemma map_key_update_nth_fun (f : Position.t -> Position.t)
    (ps : list Position.t) (i : nat) :
  (forall p, position_key (f p) = position_key p) ->
  map position_key (update_nth i f ps) = map position_key ps.
Proof.
  intro Hf. revert i. induction ps as [|q r IH]; intros [|i]; cbn;
    try reflexivity.
  - rewrite Hf. reflexivity.
  - rewrite IH. reflexivity.
Qed.

Lemma keeps_keys_update_position (i : nat) (f : Position.t -> Position.t) :
  (forall p, position_key (f p) = position_key p) ->
  keeps (fun s => map position_key (positions s)) (update_position i f).
Proof.
  intros Hf s. cbn. apply map_key_update_nth_fun. exact Hf.
Qed.

(** Walks through a computation that writes positions only through
    setters of fields other than the key. *)
Ltac keeps_keys_tac :=
  repeat first
    [ apply keeps_keys_update_position; intros []; reflexivity
    | apply keeps_bind; [| intro]
    | apply keeps_raise_if | apply keeps_decimal_div
    | match goal with
      | |- keeps _ (if ?b then _ else _) => destruct b
      | |- keeps _ (match ?x with _ => _ end) => destruct x
      end
    | solve [intro; reflexivity] ].

Lemma close_position_keeps_keys (K : Crypto.Constants) (now : Q)
    (side : Side) (notional taker_fee quantity : Q)
    (pos : option (nat * Position.t)) :
  keeps (fun s => map position_key (positions s))
    (Crypto.close_position K now side notional taker_fee quantity pos).
Proof.
  unfold Crypto.close_position, Crypto.charge_interest. keeps_keys_tac.
Qed.

Lemma spot_sell_keeps_keys (symbol market : string) (notional total_fee : Q)
    (quantity : Z) :
  keeps (fun s => map position_key (positions s))
    (MT5.execute_sell symbol market notional total_fee quantity)
  /\ keeps (fun s => map position_key (positions s))
       (AStock.execute_sell symbol notional total_fee quantity).
Proof.
  split; unfold MT5.execute_sell, AStock.execute_sell, query_position;
    keeps_keys_tac.
Qed.

Lemma spot_buy_grows_by_key (symbol name market : string)
    (exec_price notional total_fee : Q) (quantity : Z) (s : Session) :
  grows_by_key (Account.id (account s)) symbol market (positions s)
    (positions (snd (MT5.execute_buy symbol name market exec_price notional
                       total_fee quantity s))).
Proof.
  unfold MT5.execute_buy. run_exec.
  destruct (Qltb _ _); cbn; [left; reflexivity|].
  destruct (first_position _ symbol market (positions s)) as [[i p]|] eqn:Hpos;
    cbn.
  - left. destruct (Qeq_bool _ 0); cbn; [reflexivity|].
    apply map_key_update_nth_fun. intros []; reflexivity.
  - right. split; [exact Hpos|]. rewrite map_app. reflexivity.
Qed.

Lemma astock_buy_grows_by_key (symbol name : string)
    (exec_price notional total_fee : Q) (quantity : Z) (s : Session) :
  grows_by_key (Account.id (account s)) symbol "ASTOCK" (positions s)
    (positions (snd (AStock.execute_buy symbol name exec_price notional
                       total_fee quantity s))).
Proof.
  unfold AStock.execute_buy. run_exec.
  destruct (Qltb _ _); cbn; [left; reflexivity|].
  destruct (first_position _ symbol "ASTOCK" (positions s)) as [[i p]|] eqn:Hpos;
    cbn.
  - left. destruct (Qeq_bool _ 0); cbn; [reflexivity|].
    apply map_key_update_nth_fun. intros []; reflexivity.
  - right. split; [exact Hpos|]. rewrite map_app. reflexivity.
Qed.

Lemma open_position_keeps_keys (K : Crypto.Constants) (now : Q)
    (symbol name : string) (side : Side)
    (exec_price notional taker_fee quantity : Q) (leverage : Z)
    (i : nat) (p : Position.t) :
  keeps (fun s => map position_key (positions s))
    (Crypto.open_position K now symbol name side exec_price notional
       taker_fee quantity leverage (Some (i, p))).
Proof.
  unfold Crypto.open_position, Crypto.charge_interest. keeps_keys_tac.
Qed.

Lemma open_position_grows_by_key (K : Crypto.Constants) (now : Q)
    (symbol name : string) (side : Side)
    (exec_price notional taker_fee quantity : Q) (leverage : Z) (s : Session) :
  grows_by_key (Account.id (account s)) symbol "CRYPTO" (positions s)
    (positions
       (snd (Crypto.open_position K now symbol name side exec_price notional
               taker_fee quantity leverage
               (first_position (Account.id (account s)) symbol "CRYPTO"
                  (positions s)) s))).
Proof.
  destruct (first_position _ symbol "CRYPTO" (positions s)) as [[i p]|] eqn:Hpos.
  - left. apply (open_position_keeps_keys K now symbol name side exec_price
                   notional taker_fee quantity leverage i p s).
  - unfold grows_by_key. rewrite Hpos.
    unfold Crypto.open_position. run_exec.
    destruct (Qltb _ _); cbn; [left; reflexivity|].
    right. split; [reflexivity|].
    destruct (1 <? leverage)%Z; cbn;
      rewrite !map_key_update_nth_fun by (intros []; reflexivity);
      rewrite map_app; reflexivity.
Qed.

(** Every executor keeps the position table free of duplicate keys,
    whether the order fills or is refused: a table with one row per
    (account, symbol, market) is still such a table after any call of the
    crypto, A-share, MT5, Futu or IBKR executor. *)
Theorem executors_keep_keys_unique (s : Session) (symbol name : string)
    (side : Side) (order_type : OrderType) (price : option Q) :
  unique_keys s ->
  (forall K oracle now quantity leverage,
     unique_keys (snd (Crypto.place_and_execute_crypto K oracle now symbol
                         name side order_type price quantity leverage s)))
  /\ (forall oracle quantity mirror,
        unique_keys (snd (AStock.place_and_execute_astock oracle symbol name
                            side order_type price quantity mirror s)))
  /\ (forall oracle quantity mirror market,
        unique_keys (snd (MT5.place_and_execute_mt5_order oracle symbol name
                            side order_type price quantity mirror market s)))
  /\ (forall oracle quantity mirror,
        unique_keys (snd (Futu.place_and_execute_futu_order oracle symbol name
                            side order_type price quantity mirror s)))
  /\ (forall oracle quantity mirror,
        unique_keys (snd (IBKR.place_and_execute_ibkr_order oracle symbol name
                            side order_type price quantity mirror s))).
Proof.
  unfold unique_keys. intro Hnd. repeat split.
  - intros K oracle now quantity leverage.
    unfold Crypto.place_and_execute_crypto. run_exec.
    destruct ((leverage <? 1)%Z || (Crypto.CRYPTO_MAX_LEVERAGE K <? leverage)%Z);
      cbn; [exact Hnd|].
    destruct (Qltb quantity (Crypto.CRYPTO_MIN_ORDER_QUANTITY K));
      cbn; [exact Hnd|].
    destruct (Crypto.exec_price_of oracle symbol order_type price)
      as [exec_price | e0]; cbn; [|exact Hnd].
    match goal with
    | |- context [?body {| account := account s; positions := positions s;
                           orders := ?os; trades := trades s |}] =>
        set (s1 := {| account := account s; positions := positions s;
                      orders := os; trades := trades s |});
        assert (Hk : NoDup (map position_key (positions (snd (body s1)))));
        [| destruct (body s1) as [[ic | e1] s2]; cbn in Hk |- *; exact Hk ]
    end.
    destruct side.
    + exact (grows_by_key_unique _ _ _ _ _
               (open_position_grows_by_key K now symbol name LONG exec_price _
                  _ quantity leverage s1) Hnd).
    + exact (grows_by_key_unique _ _ _ _ _
               (open_position_grows_by_key K now symbol name SHORT exec_price _
                  _ quantity leverage s1) Hnd).
    + rewrite (close_position_keeps_keys K now BUY _ _ quantity _ s1).
      exact Hnd.
    + rewrite (close_position_keeps_keys K now SELL _ _ quantity _ s1).
      exact Hnd.
    + exact Hnd.
  - intros oracle quantity mirror.
    unfold AStock.place_and_execute_astock. run_exec.
    destruct (negb (quantity mod AStock.ASTOCK_LOT_SIZE =? 0)%Z);
      cbn; [exact Hnd|].
    destruct (quantity <? AStock.ASTOCK_MIN_ORDER_QUANTITY)%Z;
      cbn; [exact Hnd|].
    destruct (AStock.exec_price_of oracle symbol order_type price) as [P|];
      cbn; [|exact Hnd].
    match goal with
    | |- context [?body {| account := account s; positions := positions s;
                           orders := ?os; trades := trades s |}] =>
        set (s1 := {| account := account s; positions := positions s;
                      orders := os; trades := trades s |});
        assert (Hk : NoDup (map position_key (positions (snd (body s1)))));
        [| destruct (body s1) as [[ic | e1] s2]; cbn in Hk |- *; exact Hk ]
    end.
    destruct side; try exact Hnd.
    + exact (grows_by_key_unique _ _ _ _ _
               (astock_buy_grows_by_key symbol name P _ _ quantity s1) Hnd).
    + rewrite (proj2 (spot_sell_keeps_keys symbol "ASTOCK" _ _ quantity) s1).
      exact Hnd.
  - intros oracle quantity mirror market.
    unfold MT5.place_and_execute_mt5_order. run_exec.
    destruct (negb (quantity mod MT5.CN_MIN_ORDER_QUANTITY =? 0)%Z);
      cbn; [exact Hnd|].
    destruct (MT5.exec_price_of oracle symbol order_type price) as [P|];
      cbn; [|exact Hnd].
    match goal with
    | |- context [?body {| account := account s; positions := positions s;
                           orders := ?os; trades := trades s |}] =>
        set (s1 := {| account := account s; positions := positions s;
                      orders := os; trades := trades s |});
        assert (Hk : NoDup (map position_key (positions (snd (body s1)))));
        [| destruct (body s1) as [[ic | e1] s2]; cbn in Hk |- *; exact Hk ]
    end.
    destruct side; try exact Hnd.
    + exact (grows_by_key_unique _ _ _ _ _
               (spot_buy_grows_by_key symbol name market P _ _ quantity s1) Hnd).
    + rewrite (proj1 (spot_sell_keeps_keys symbol market _ _ quantity) s1).
      exact Hnd.
  - intros oracle quantity mirror.
    unfold Futu.place_and_execute_futu_order. run_exec.
    match goal with
    | |- context [if ?b then _ else _] => destruct b
    end; cbn; [exact Hnd|].
    match goal with
    | |- context [if ?b && ?c then _ else _] => destruct (b && c)
    end; cbn; [exact Hnd|].
    destruct (MT5.exec_price_of oracle symbol order_type price) as [P|];
      cbn; [|exact Hnd].
    match goal with
    | |- context [?body {| account := account s; positions := positions s;
                           orders := ?os; trades := trades s |}] =>
        set (s1 := {| account := account s; positions := positions s;
                      orders := os; trades := trades s |});
        assert (Hk : NoDup (map position_key (positions (snd (body s1)))));
        [| destruct (body s1) as [[ic | e1] s2]; cbn in Hk |- *; exact Hk ]
    end.
    destruct side; try exact Hnd.
    + exact (grows_by_key_unique _ _ _ _ _
               (spot_buy_grows_by_key symbol name (Futu.market_of symbol) P _ _ quantity s1) Hnd).
    + rewrite (proj1 (spot_sell_keeps_keys symbol (Futu.market_of symbol) _ _ quantity) s1).
      exact Hnd.
  - intros oracle quantity mirror.
    unfold IBKR.place_and_execute_ibkr_order. run_exec.
    destruct (quantity <? IBKR.US_MIN_ORDER_QUANTITY)%Z;
      cbn; [exact Hnd|].
    destruct (MT5.exec_price_of oracle symbol order_type price) as [P|];
      cbn; [|exact Hnd].
    match goal with
    | |- context [?body {| account := account s; positions := positions s;
                           orders := ?os; trades := trades s |}] =>
        set (s1 := {| account := account s; positions := positions s;
                      orders := os; trades := trades s |});
        assert (Hk : NoDup (map position_key (positions (snd (body s1)))));
        [| destruct (body s1) as [[ic | e1] s2]; cbn in Hk |- *; exact Hk ]
    end.
    destruct side; try exact Hnd.
    + exact (grows_by_key_unique _ _ _ _ _
               (spot_buy_grows_by_key symbol name "US" P _ _ quantity s1) Hnd).
    + rewrite (proj1 (spot_sell_keeps_keys symbol "US" _ _ quantity) s1).
      exact Hnd.
Qed.

Lemma executors_keep_keys_unique_witness :
  unique_keys (snd (Crypto.place_and_execute_crypto example_constants no_quote
                      0 "ETH/USDT" "Ether" LONG LIMIT (Some 2000) 1 5
                      long_session))
  /\ unique_keys (snd (IBKR.place_and_execute_ibkr_order
                         (fun _ => QuoteNone) "ETH/USDT" "Ether" BUY LIMIT
                         (Some 2000) 3 false long_session)).
Proof.
  destruct (executors_keep_keys_unique long_session "ETH/USDT" "Ether" LONG
              LIMIT (Some 2000)) as (H1 & _).
  { vm_compute. repeat constructor. intros []. }
  destruct (executors_keep_keys_unique long_session "ETH/USDT" "Ether" BUY
              LIMIT (Some 2000)) as (_ & _ & _ & _ & H5).
  { vm_compute. repeat constructor. intros []. }
  split; [apply H1 | apply H5].
Defined.

(** ** The equity venues: MT5, Futu and IBKR *)

Lemma market_of_hk (symbol : string) :
  String.eqb (Futu.market_of symbol) "HK" = String.prefix "HK." symbol.
Proof.
  unfold Futu.market_of.
  destruct (String.prefix "HK." symbol); [reflexivity|].
  destruct (String.prefix "US." symbol); reflexivity.
Qed.

(** The shared BUY and SELL branches move the cash by the notional and the
    fee, and a BUY that goes through leaves the cash non-negative. *)
Lemma spot_branch_cash_flow (symbol name market : string) (side : Side)
    (exec_price notional total_fee : Q) (quantity : Z) (s s' : Session) :
  match side with
  | BUY => MT5.execute_buy symbol name market exec_price notional total_fee
             quantity
  | SELL => MT5.execute_sell symbol market notional total_fee quantity
  | _ => raise InvalidSide
  end s = (Ok tt, s') ->
  (side = BUY \/ side = SELL)
  /\ Account.current_cash (account s')
     == Account.current_cash (account s) + cash_flow side notional - total_fee
  /\ (side = BUY -> 0 <= Account.current_cash (account s'))
  /\ Account.margin_used (account s') = Account.margin_used (account s)
  /\ Account.id (account s') = Account.id (account s)
  /\ orders s' = orders s /\ trades s' = trades s.
Proof.
  intro H. destruct side; try discriminate.
  - unfold MT5.execute_buy in H. run_exec_in H.
    destruct (Qltb _ _) eqn:Hlt; cbn in H; [discriminate|].
    apply Qltb_false in Hlt.
    destruct (first_position _ symbol market (positions s)) as [[i p]|];
      cbn in H.
    + destruct (Qeq_bool _ 0); cbn in H; [discriminate|].
      inversion H; subst; cbn. repeat split; try (left; reflexivity);
        try reflexivity; try (intros _; lra); ring.
    + inversion H; subst; cbn. repeat split; try (left; reflexivity);
        try reflexivity; try (intros _; lra); ring.
  - unfold MT5.execute_sell in H. run_exec_in H.
    destruct (first_position _ symbol market (positions s)) as [[i p]|];
      cbn in H; [|discriminate].
    destruct (Qltb _ _); cbn in H; [discriminate|].
    inversion H; subst; cbn. repeat split; try (right; reflexivity);
      try reflexivity; try discriminate; ring.
Qed.

(** The Futu and IBKR executors refuse an order whose quantity fails their
    checks before anything is written: the session is exactly as it was.
    Futu wants at least 100 shares in multiples of 100 for a Hong Kong
    symbol and at least 1 share otherwise; IBKR wants at least 1 share. *)
Theorem venue_bad_quantity_leaves_session (symbol name : string) (side : Side)
    (order_type : OrderType) (price : option Q) (quantity : Z)
    (mirror : bool) (oracle : string -> quote) (s : Session) :
  (~ valid_futu_order symbol quantity ->
   exists e,
     Futu.place_and_execute_futu_order oracle symbol name side order_type
       price quantity mirror s = (Raise e, s)
     /\ (e = QuantityBelowMinimum \/ e = InvalidLotMultiple))
  /\ ((quantity < 1)%Z ->
      IBKR.place_and_execute_ibkr_order oracle symbol name side order_type
        price quantity mirror s = (Raise QuantityBelowMinimum, s)).
Proof.
  split.
  - intro Hbad. unfold Futu.place_and_execute_futu_order. run_exec.
    rewrite market_of_hk. unfold valid_futu_order in Hbad.
    unfold Futu.HK_MIN_ORDER_QUANTITY, Futu.US_MIN_ORDER_QUANTITY.
    destruct (String.prefix "HK." symbol); cbn.
    + destruct (Z.ltb_spec quantity 100) as [Hlt | Hge]; cbn.
      * eexists. split; [reflexivity | left; reflexivity].
      * destruct (Z.eqb_spec (quantity mod 100) 0) as [Hm | Hm]; cbn.
        -- exfalso. apply Hbad. split; assumption.
        -- eexists. split; [reflexivity | right; reflexivity].
    + destruct (Z.ltb_spec quantity 1) as [Hlt | Hge]; cbn.
      * eexists. split; [reflexivity | left; reflexivity].
      * contradiction.
  - intro Hlt. unfold IBKR.place_and_execute_ibkr_order. run_exec.
    unfold IBKR.US_MIN_ORDER_QUANTITY.
    destruct (Z.ltb_spec quantity 1) as [_ | Hge]; [reflexivity | lia].
Qed.

Lemma venue_bad_quantity_leaves_session_witness :
  (exists e,
     Futu.place_and_execute_futu_order silent_feed "HK.00700" "Tencent" BUY
       LIMIT (Some 300) 150 false example_account = (Raise e, example_account)
     /\ (e = QuantityBelowMinimum \/ e = InvalidLotMultiple))
  /\ IBKR.place_and_execute_ibkr_order silent_feed "AAPL" "Apple" BUY LIMIT
       (Some 200) 0 false example_account
     = (Raise QuantityBelowMinimum, example_account).
Proof.
  destruct (venue_bad_quantity_leaves_session "HK.00700" "Tencent" BUY LIMIT
              (Some 300) 150 false silent_feed example_account) as [H1 _].
  destruct (venue_bad_quantity_leaves_session "AAPL" "Apple" BUY LIMIT
              (Some 200) 0 false silent_feed example_account) as [_ H2].
  split.
  - apply H1. vm_compute. intros [_ H]. discriminate.
  - apply H2. lia.
Defined.

(** A filled Futu order moves the cash by exactly the notional (paid on a
    BUY, received on a SELL) less the fee, and never touches the margin.
    The fee is the same on both sides: for a Hong Kong symbol the
    commission (at least 3), the platform fee of 15 and the stamp duty; for
    any other symbol the per-share commission (at least 1).  A filled BUY
    leaves the cash non-negative. *)
Theorem futu_fill_cash_flow (oracle : string -> quote) (symbol name : string)
    (side : Side) (order_type : OrderType) (price : option Q) (quantity : Z)
    (mirror : bool) (s s' : Session) (o : Order.t) :
  Futu.place_and_execute_futu_order oracle symbol name side order_type price
    quantity mirror s = (Ok o, s') ->
  exists exec_price,
    let notional := exec_price * inject_Z quantity in
    let fee := futu_total_fee symbol notional quantity in
    MT5.exec_price_of oracle symbol order_type price = Ok exec_price
    /\ valid_futu_order symbol quantity
    /\ (side = BUY \/ side = SELL)
    /\ Account.current_cash (account s')
       == Account.current_cash (account s) + cash_flow side notional - fee
    /\ Account.margin_used (account s') = Account.margin_used (account s)
    /\ (side = BUY -> 0 <= Account.current_cash (account s'))
    /\ (0 <= exec_price ->
        if String.prefix "HK." symbol then 18 <= fee else 1 <= fee).
Proof.
  intro H. unfold Futu.place_and_execute_futu_order in H. run_exec_in H.
  rewrite !market_of_hk in H.
  unfold Futu.HK_MIN_ORDER_QUANTITY, Futu.US_MIN_ORDER_QUANTITY in H.
  unfold valid_futu_order, futu_total_fee.
  destruct (String.prefix "HK." symbol); cbn in H.
  - destruct (Z.ltb_spec quantity 100) as [|Hmin]; cbn in H; [discriminate|].
    destruct (Z.eqb_spec (quantity mod 100) 0) as [Hlot|]; cbn in H;
      [|discriminate].
    destruct (MT5.exec_price_of oracle symbol order_type price) as [P|];
      cbn in H; [|discriminate].
    match type of H with
    | (let (_, _) := ?body ?s1 in _) = _ =>
        destruct (body s1) as [[[] | e1] s2] eqn:Hbody
    end; cbn in H; [|discriminate].
    apply spot_branch_cash_flow in Hbody. cbn in Hbody.
    destruct Hbody as (Hside & Hcash & Hnn & Hmu & _).
    inversion H; subst; clear H. cbn.
    exists P. repeat split; try assumption.
    intro HP.
    assert (Hn : 0 <= P * inject_Z quantity).
    { apply Qmult_le_0_compat; [exact HP|].
      change 0 with (inject_Z 0). rewrite <- Zle_Qle. lia. }
    unfold pymax, Futu.HK_COMMISSION_RATE, Futu.HK_MIN_COMMISSION,
      Futu.HK_PLATFORM_FEE, Futu.HK_STAMP_DUTY_RATE.
    destruct (Qltb _ 3) eqn:Hlt; [|apply Qltb_false in Hlt]; lra.
  - destruct (Z.ltb_spec quantity 1) as [|Hmin]; cbn in H; [discriminate|].
    destruct (MT5.exec_price_of oracle symbol order_type price) as [P|];
      cbn in H; [|discriminate].
    match type of H with
    | (let (_, _) := ?body ?s1 in _) = _ =>
        destruct (body s1) as [[[] | e1] s2] eqn:Hbody
    end; cbn in H; [|discriminate].
    apply spot_branch_cash_flow in Hbody. cbn in Hbody.
    destruct Hbody as (Hside & Hcash & Hnn & Hmu & _).
    inversion H; subst; clear H. cbn.
    exists P. repeat split; try assumption.
    intros _.
    unfold Futu._calc_us_fee, pymax, Futu.US_COMMISSION_PER_SHARE,
      Futu.US_MIN_COMMISSION.
    destruct (Qltb _ 1) eqn:Hlt; [|apply Qltb_false in Hlt]; lra.
Qed.

Lemma futu_fill_cash_flow_witness :
  exists exec_price,
    MT5.exec_price_of silent_feed "HK.00700" LIMIT (Some 300) = Ok exec_price
    /\ Account.current_cash
         (account (snd (Futu.place_and_execute_futu_order silent_feed
                          "HK.00700" "Tencent" BUY LIMIT (Some 300) 100 false
                          example_account)))
       == Account.current_cash (account example_account)
          + cash_flow BUY (exec_price * inject_Z 100)
          - futu_total_fee "HK.00700" (exec_price * inject_Z 100) 100.
Proof.
  destruct (futu_fill_cash_flow silent_feed "HK.00700" "Tencent" BUY LIMIT
              (Some 300) 100 false example_account
              (snd (Futu.place_and_execute_futu_order silent_feed "HK.00700"
                      "Tencent" BUY LIMIT (Some 300) 100 false
                      example_account))
              (Order.mk 1 "HK.00700" "Tencent" "HK" BUY LIMIT (Some 300)
                 (inject_Z 100) 1 (inject_Z 100) FILLED))
    as (P & H1 & _ & _ & H2 & _).
  - vm_compute. reflexivity.
  - exists P. split; assumption.
Defined.



(** A filled MT5 order moves the cash by the notional (paid on a BUY,
    received on a SELL) less the fee, and that fee is what the A-share
    executor charges for the same notional and side (commission, and stamp
    tax on a SELL) plus a transfer fee of 0.002% of the notional. *)
Theorem mt5_fill_cash_flow (oracle : string -> quote) (symbol name : string)
    (side : Side) (order_type : OrderType) (price : option Q) (quantity : Z)
    (mirror : bool) (market : string) (s s' : Session) (o : Order.t) :
  MT5.place_and_execute_mt5_order oracle symbol name side order_type price
    quantity mirror market s = (Ok o, s') ->
  exists exec_price fee,
    let notional := exec_price * inject_Z quantity in
    let astock_fee := AStock._calc_astock_fee notional (Side_eqb side SELL) in
    MT5.exec_price_of oracle symbol order_type price = Ok exec_price
    /\ (side = BUY \/ side = SELL)
    /\ Account.current_cash (account s')
       == Account.current_cash (account s) + cash_flow side notional - fee
    /\ fee == fst astock_fee + snd astock_fee + notional * 0.00002
    /\ Account.margin_used (account s') = Account.margin_used (account s)
    /\ (side = BUY -> 0 <= Account.current_cash (account s')).
Proof.
  intro H. unfold MT5.place_and_execute_mt5_order in H. run_exec_in H.
  destruct (negb (quantity mod MT5.CN_MIN_ORDER_QUANTITY =? 0)%Z);
    cbn in H; [discriminate|].
  destruct (MT5.exec_price_of oracle symbol order_type price) as [P|];
    cbn in H; [|discriminate].
  match type of H with
  | (let (_, _) := ?body ?s1 in _) = _ =>
      destruct (body s1) as [[[] | e1] s2] eqn:Hbody
  end; cbn in H; [|discriminate].
  apply spot_branch_cash_flow in Hbody. cbn in Hbody.
  destruct Hbody as (Hside & Hcash & Hnn & Hmu & _).
  inversion H; subst; clear H. cbn.
  exists P, (MT5._calc_cn_fee quantity P (Side_eqb side SELL)).
  repeat split; try assumption.
  unfold MT5._calc_cn_fee, AStock._calc_astock_fee,
    MT5.CN_COMMISSION_RATE, MT5.CN_MIN_COMMISSION, MT5.CN_STAMP_TAX_RATE,
    MT5.CN_TRANSFER_FEE_RATE, AStock.ASTOCK_COMMISSION_RATE,
    AStock.ASTOCK_MIN_COMMISSION, AStock.ASTOCK_STAMP_TAX_RATE.
  cbn [fst snd].
  assert (Hn : inject_Z quantity * P == P * inject_Z quantity) by ring.
  unfold pymax.
  assert (Hb : Qltb (inject_Z quantity * P * 0.0003) 5
               = Qltb (P * inject_Z quantity * 0.0003) 5).
  { unfold Qltb. f_equal. 
    destruct (Qle_bool 5 (inject_Z quantity * P * 0.0003)) eqn:H1;
    destruct (Qle_bool 5 (P * inject_Z quantity * 0.0003)) eqn:H2;
    try reflexivity.
    - apply Qle_bool_iff in H1. rewrite Hn in H1. apply Qle_bool_iff in H1.
      congruence.
    - apply Qle_bool_iff in H2. rewrite <- Hn in H2. apply Qle_bool_iff in H2.
      congruence. }
  rewrite Hb. clear Hb.
  destruct (Qltb _ 5); destruct (Side_eqb side SELL); ring.
Qed.

Lemma mt5_fill_cash_flow_witness :
  exists exec_price fee,
    MT5.exec_price_of silent_feed "600000" LIMIT (Some 10) = Ok exec_price
    /\ Account.current_cash
         (account (snd (MT5.place_and_execute_mt5_order silent_feed "600000"
                          "SPDB" BUY LIMIT (Some 10) 100 false "CN"
                          example_account)))
       == Account.current_cash (account example_account)
          + cash_flow BUY (exec_price * inject_Z 100) - fee
    /\ fee == 5 + 0 + exec_price * inject_Z 100 * 0.00002.
Proof.
  destruct (mt5_fill_cash_flow silent_feed "600000" "SPDB" BUY LIMIT
              (Some 10) 100 false "CN" example_account
              (snd (MT5.place_and_execute_mt5_order silent_feed "600000"
                      "SPDB" BUY LIMIT (Some 10) 100 false "CN"
                      example_account))
              (Order.mk 1 "600000" "SPDB" "CN" BUY LIMIT (Some 10)
                 (inject_Z 100) 1 (inject_Z 100) FILLED))
    as (P & fee & H1 & _ & H2 & H3 & _).
  - vm_compute. reflexivity.
  - exists P, fee. repeat split; try assumption.
    rewrite H3. inversion H1. vm_compute. reflexivity.
Defined.

(** ** Cash after a crypto open *)





(** ** Selling an unleveraged crypto holding *)



(** ** The MT5 executor has no minimum quantity *)

(** The MT5 executor checks only that the quantity is a multiple of 100,
    so a BUY for a negative multiple passes: on an account with no row for
    the symbol and at least 5 in cash it is FILLED, the commission is the
    minimum of 5, the cash goes up by the absolute notional (plus its
    transfer fee) less 5, and a row with a negative quantity is opened. *)
Theorem mt5_buy_negative_lot_fills (oracle : string -> quote) (s : Session)
    (symbol name market : string) (order_type : OrderType) (price : option Q)
    (quantity : Z) (mirror : bool) (exec_price : Q) :
  (quantity mod MT5.CN_MIN_ORDER_QUANTITY = 0)%Z ->
  (quantity < 0)%Z ->
  MT5.exec_price_of oracle symbol order_type price = Ok exec_price ->
  0 < exec_price ->
  first_position (Account.id (account s)) symbol market (positions s) = None ->
  5 <= Account.current_cash (account s) ->
  exists o s',
    MT5.place_and_execute_mt5_order oracle symbol name BUY order_type price
      quantity mirror market s = (Ok o, s')
    /\ Order.status o = FILLED
    /\ Account.current_cash (account s')
       == Account.current_cash (account s)
          + exec_price * inject_Z (- quantity) * 1.00002 - 5
    /\ positions s'
       = positions s
         ++ [new_position (Account.id (account s)) symbol name market
               (inject_Z quantity) (inject_Z quantity) exec_price 1]
    /\ inject_Z quantity < 0.
Proof.
  intros Hlot Hneg Hp HP Hpos Hcash.
  assert (Hq : inject_Z quantity < 0).
  { change 0 with (inject_Z 0). rewrite <- Zlt_Qlt. exact Hneg. }
  assert (Hn : inject_Z quantity * exec_price < 0).
  { setoid_replace (inject_Z quantity * exec_price)
      with (- (exec_price * - inject_Z quantity)) by ring.
    assert (0 < exec_price * - inject_Z quantity)
      by (apply Qmult_lt_0_compat; lra).
    lra. }
  assert (Hfee : MT5._calc_cn_fee quantity exec_price false
                 == 5 + inject_Z quantity * exec_price * 0.00002).
  { unfold MT5._calc_cn_fee, MT5.CN_COMMISSION_RATE, MT5.CN_MIN_COMMISSION,
      MT5.CN_TRANSFER_FEE_RATE, pymax.
    assert (Hc : Qltb (inject_Z quantity * exec_price * 0.0003) 5 = true)
      by (apply Qltb_true; lra).
    rewrite Hc. ring. }
  assert (Hlt : Qltb (Account.current_cash (account s))
                  (exec_price * inject_Z quantity
                   + MT5._calc_cn_fee quantity exec_price false) = false).
  { apply Qltb_false. rewrite Hfee.
    setoid_replace (exec_price * inject_Z quantity)
      with (inject_Z quantity * exec_price) by ring.
    lra. }
  unfold MT5.place_and_execute_mt5_order, MT5.execute_buy. run_exec.
  rewrite Hlot, Hp. cbn. rewrite Hlt. cbn. rewrite Hpos. cbn.
  do 2 eexists. split; [reflexivity|]. cbn.
  split; [reflexivity|]. split.
  - rewrite Hfee. rewrite inject_Z_opp. ring.
  - split; [reflexivity | exact Hq].
Qed.

Lemma mt5_buy_negative_lot_fills_witness :
  exists o s',
    MT5.place_and_execute_mt5_order silent_feed "600000" "SPDB" BUY LIMIT
      (Some 10) (-100) false "CN" example_account = (Ok o, s')
    /\ Order.status o = FILLED
    /\ Account.current_cash (account s')
       == Account.current_cash (account example_account)
          + 10 * inject_Z (- -100) * 1.00002 - 5.
Proof.
  destruct (mt5_buy_negative_lot_fills silent_feed example_account "600000"
              "SPDB" "CN" LIMIT (Some 10) (-100) false 10)
    as (o & s' & H1 & H2 & H3 & _).
  - reflexivity.
  - lia.
  - reflexivity.
  - reflexivity.
  - reflexivity.
  - vm_compute. discriminate.
  - exists o, s'. repeat split; assumption.
Defined.

(** ** Holdings never go negative *)

Lemma Forall_update_nth {A} (P : A -> Prop) (f : A -> A) (l : list A)
    (i : nat) :
  Forall P l ->
  (forall x, nth_error l i = Some x -> P x -> P (f x)) ->
  Forall P (update_nth i f l).
Proof.
  intro H. revert i. induction H as [|y r Hy Hr IH]; intros [|i] Hf; cbn.
  - constructor.
  - constructor.
  - constructor; [apply Hf; [reflexivity | exact Hy] | exact Hr].
  - constructor; [exact Hy | apply IH; exact Hf].
Qed.

(** Splits the run in the goal along every closed test it reaches. *)
Ltac split_goal :=
  repeat (match goal with
          | |- context [if ?b then _ else _] => destruct b eqn:?
          end; cbn).

(** Turns the remembered outcomes of the numeric tests into
    inequalities. *)
Ltac tests_to_facts :=
  repeat match goal with
         | Hb : Qltb _ _ = false |- _ => apply Qltb_false in Hb
         | Hb : Qltb _ _ = true |- _ => apply Qltb_true in Hb
         end.

(** Closes the goal that a position table, rewritten at the row [p] of
    key [i] or extended by one row, is still well formed. *)
Ltac table_well_formed Hwf Hnth :=
  rewrite ?update_nth_compose, ?update_nth_app_last;
  first
    [ exact Hwf
    | apply Forall_update_nth;
      [ exact Hwf
      | let x := fresh "x" in
        let Hx := fresh "Hx" in
        let Hok := fresh "Hok" in
        intros x Hx Hok; rewrite Hnth in Hx; inversion Hx; subst x;
        destruct Hok; tests_to_facts; cbn in *; split; lra ]
    | apply Forall_app; split;
      [ exact Hwf
      | constructor; [tests_to_facts; cbn in *; split; lra | constructor] ] ].

Lemma spot_branches_well_formed (symbol name market : string)
    (exec_price notional total_fee : Q) (quantity : Z) (s : Session) :
  well_formed_quantities (positions s) ->
  ((0 <= quantity)%Z ->
   well_formed_quantities
     (positions (snd (MT5.execute_buy symbol name market exec_price notional
                        total_fee quantity s))))
  /\ well_formed_quantities
       (positions (snd (MT5.execute_sell symbol market notional total_fee
                          quantity s))).
Proof.
  unfold well_formed_quantities. intro Hwf. split.
  - intro Hq.
    assert (Hq' : 0 <= inject_Z quantity)
      by (change 0 with (inject_Z 0); rewrite <- Zle_Qle; exact Hq).
    unfold MT5.execute_buy. run_exec.
    destruct (Qltb _ _) eqn:Hcash; cbn; [exact Hwf|].
    destruct (first_position _ symbol market (positions s)) as [[i p]|] eqn:Hpos;
      [destruct (first_position_nth _ _ _ _ _ _ Hpos) as [Hnth _]|];
      split_goal; try exact Hwf.
    + table_well_formed Hwf Hnth.
    + apply Forall_app; split; [exact Hwf|].
      constructor; [cbn; split; lra | constructor].
  - unfold MT5.execute_sell. run_exec.
    destruct (first_position _ symbol market (positions s)) as [[i p]|] eqn:Hpos;
      [destruct (first_position_nth _ _ _ _ _ _ Hpos) as [Hnth _]|];
      cbn; split_goal; try exact Hwf.
    table_well_formed Hwf Hnth.
Qed.

Lemma astock_branches_well_formed (symbol name : string)
    (exec_price notional total_fee : Q) (quantity : Z) (s : Session) :
  well_formed_quantities (positions s) ->
  ((0 <= quantity)%Z ->
   well_formed_quantities
     (positions (snd (AStock.execute_buy symbol name exec_price notional
                        total_fee quantity s))))
  /\ well_formed_quantities
       (positions (snd (AStock.execute_sell symbol notional total_fee
                          quantity s))).
Proof.
  unfold well_formed_quantities. intro Hwf. split.
  - intro Hq.
    assert (Hq' : 0 <= inject_Z quantity)
      by (change 0 with (inject_Z 0); rewrite <- Zle_Qle; exact Hq).
    unfold AStock.execute_buy. run_exec.
    destruct (Qltb _ _) eqn:Hcash; cbn; [exact Hwf|].
    destruct (first_position _ symbol "ASTOCK" (positions s))
      as [[i p]|] eqn:Hpos;
      [destruct (first_position_nth _ _ _ _ _ _ Hpos) as [Hnth _]|];
      split_goal; try exact Hwf.
    + table_well_formed Hwf Hnth.
    + apply Forall_app; split; [exact Hwf|].
      constructor; [cbn; split; lra | constructor].
  - unfold AStock.execute_sell. run_exec.
    destruct (first_position _ symbol "ASTOCK" (positions s))
      as [[i p]|] eqn:Hpos;
      [destruct (first_position_nth _ _ _ _ _ _ Hpos) as [Hnth _]|];
      cbn; split_goal; try exact Hwf.
    table_well_formed Hwf Hnth.
Qed.

Lemma crypto_branches_well_formed (K : Crypto.Constants) (now : Q)
    (symbol name : string) (side : Side)
    (exec_price notional taker_fee quantity : Q) (leverage : Z) (s : Session) :
  well_formed_quantities (positions s) ->
  0 <= quantity ->
  let pos :=
    first_position (Account.id (account s)) symbol "CRYPTO" (positions s) in
  well_formed_quantities
    (positions (snd (Crypto.open_position K now symbol name side exec_price
                       notional taker_fee quantity leverage pos s)))
  /\ well_formed_quantities
       (positions (snd (Crypto.close_position K now side notional taker_fee
                          quantity pos s))).
Proof.
  intros Hwf Hq. cbv zeta. unfold well_formed_quantities in *.
  destruct (first_position _ symbol "CRYPTO" (positions s))
    as [[i p]|] eqn:Hpos;
    [destruct (first_position_nth _ _ _ _ _ _ Hpos) as [Hnth _]|]; split.
  - unfold Crypto.open_position, Crypto.charge_interest. run_exec.
    split_goal; table_well_formed Hwf Hnth.
  - unfold Crypto.close_position, Crypto.charge_interest. run_exec.
    split_goal; table_well_formed Hwf Hnth.
  - unfold Crypto.open_position. run_exec.
    split_goal; table_well_formed Hwf Hpos.
  - cbn. exact Hwf.
Qed.

(** The crypto, A-share, Futu and IBKR executors never make a holding
    negative or its available part larger than the whole: if every row has
    [0 <= quantity] and [available_quantity <= quantity] before a call,
    every row has after it, whether the order fills or is refused (for the
    crypto executor, provided the configured minimum order quantity is not
    negative). *)
Theorem holdings_stay_well_formed (s : Session) (symbol name : string)
    (side : Side) (order_type : OrderType) (price : option Q) :
  well_formed_quantities (positions s) ->
  (forall K oracle now quantity leverage,
     0 <= Crypto.CRYPTO_MIN_ORDER_QUANTITY K ->
     well_formed_quantities
       (positions (snd (Crypto.place_and_execute_crypto K oracle now symbol
                          name side order_type price quantity leverage s))))
  /\ (forall oracle quantity mirror,
        well_formed_quantities
          (positions (snd (AStock.place_and_execute_astock oracle symbol name
                             side order_type price quantity mirror s))))
  /\ (forall oracle quantity mirror,
        well_formed_quantities
          (positions (snd (Futu.place_and_execute_futu_order oracle symbol
                             name side order_type price quantity mirror s))))
  /\ (forall oracle quantity mirror,
        well_formed_quantities
          (positions (snd (IBKR.place_and_execute_ibkr_order oracle symbol
                             name side order_type price quantity mirror s)))).
Proof.
  intro Hwf. repeat split.
  - intros K oracle now quantity leverage Hmin.
    unfold Crypto.place_and_execute_crypto. run_exec.
    destruct ((leverage <? 1)%Z || (Crypto.CRYPTO_MAX_LEVERAGE K <? leverage)%Z);
      cbn; [exact Hwf|].
    destruct (Qltb quantity (Crypto.CRYPTO_MIN_ORDER_QUANTITY K)) eqn:Hq;
      cbn; [exact Hwf|].
    apply Qltb_false in Hq.
    destruct (Crypto.exec_price_of oracle symbol order_type price)
      as [exec_price | e0]; cbn; [|exact Hwf].
    match goal with
    | |- context [?body {| account := account s; positions := positions s;
                           orders := ?os; trades := trades s |}] =>
        set (s1 := {| account := account s; positions := positions s;
                      orders := os; trades := trades s |});
        assert (Hk : well_formed_quantities (positions (snd (body s1))));
        [| destruct (body s1) as [[ic | e1] s2]; cbn in Hk |- *; exact Hk ]
    end.
    assert (H0 : 0 <= quantity) by lra.
    destruct side; try exact Hwf;
      first
        [ exact (proj1 (crypto_branches_well_formed K now symbol name _
                          exec_price _ _ quantity leverage s1 Hwf H0))
        | exact (proj2 (crypto_branches_well_formed K now symbol name _
                          exec_price _ _ quantity leverage s1 Hwf H0)) ].
  - intros oracle quantity mirror.
    unfold AStock.place_and_execute_astock. run_exec.
    destruct (negb (quantity mod AStock.ASTOCK_LOT_SIZE =? 0)%Z);
      cbn; [exact Hwf|].
    unfold AStock.ASTOCK_MIN_ORDER_QUANTITY.
    destruct (Z.ltb_spec quantity 100) as [|Hmin]; cbn; [exact Hwf|].
    destruct (AStock.exec_price_of oracle symbol order_type price) as [P|];
      cbn; [|exact Hwf].
    match goal with
    | |- context [?body {| account := account s; positions := positions s;
                           orders := ?os; trades := trades s |}] =>
        set (s1 := {| account := account s; positions := positions s;
                      orders := os; trades := trades s |});
        assert (Hk : well_formed_quantities (positions (snd (body s1))));
        [| destruct (body s1) as [[ic | e1] s2]; cbn in Hk |- *; exact Hk ]
    end.
    destruct side; try exact Hwf.
    + apply (astock_branches_well_formed symbol name P _ _ quantity s1 Hwf).
      lia.
    + apply (astock_branches_well_formed symbol name 0 _ _ quantity s1 Hwf).
  - intros oracle quantity mirror.
    unfold Futu.place_and_execute_futu_order. run_exec.
    rewrite !market_of_hk.
    unfold Futu.HK_MIN_ORDER_QUANTITY, Futu.US_MIN_ORDER_QUANTITY.
    assert (Hq : (quantity <? (if String.prefix "HK." symbol then 100 else 1))%Z
                 = false -> (0 <= quantity)%Z).
    { intro H. apply Z.ltb_ge in H.
      destruct (String.prefix "HK." symbol); lia. }
    destruct (quantity <? _)%Z; cbn; [exact Hwf|].
    specialize (Hq eq_refl).
    destruct (String.prefix "HK." symbol && _); cbn; [exact Hwf|].
    destruct (MT5.exec_price_of oracle symbol order_type price) as [P|];
      cbn; [|exact Hwf].
    match goal with
    | |- context [?body {| account := account s; positions := positions s;
                           orders := ?os; trades := trades s |}] =>
        set (s1 := {| account := account s; positions := positions s;
                      orders := os; trades := trades s |});
        assert (Hk : well_formed_quantities (positions (snd (body s1))));
        [| destruct (body s1) as [[ic | e1] s2]; cbn in Hk |- *; exact Hk ]
    end.
    destruct side; try exact Hwf.
    + apply (spot_branches_well_formed symbol name _ P _ _ quantity s1 Hwf).
      exact Hq.
    + apply (spot_branches_well_formed symbol name _ 0 _ _ quantity s1 Hwf).
  - intros oracle quantity mirror.
    unfold IBKR.place_and_execute_ibkr_order. run_exec.
    unfold IBKR.US_MIN_ORDER_QUANTITY.
    destruct (Z.ltb_spec quantity 1) as [|Hmin]; cbn; [exact Hwf|].
    destruct (MT5.exec_price_of oracle symbol order_type price) as [P|];
      cbn; [|exact Hwf].
    match goal with
    | |- context [?body {| account := account s; positions := positions s;
                           orders := ?os; trades := trades s |}] =>
        set (s1 := {| account := account s; positions := positions s;
                      orders := os; trades := trades s |});
        assert (Hk : well_formed_quantities (positions (snd (body s1))));
        [| destruct (body s1) as [[ic | e1] s2]; cbn in Hk |- *; exact Hk ]
    end.
    destruct side; try exact Hwf.
    + apply (spot_branches_well_formed symbol name _ P _ _ quantity s1 Hwf).
      lia.
    + apply (spot_branches_well_formed symbol name _ 0 _ _ quantity s1 Hwf).
Qed.

Lemma holdings_stay_well_formed_witness :
  well_formed_quantities
    (positions (snd (Crypto.place_and_execute_crypto example_constants
                       no_quote 3600 "BTC/USDT" "Bitcoin" SELL LIMIT
                       (Some 31000) 1 10 short_session)))
  /\ well_formed_quantities
       (positions (snd (AStock.place_and_execute_astock no_quote "600000"
                          "SPDB" SELL LIMIT (Some 9) 100 false
                          astock_holding_session))).
Proof.
  split.
  - destruct (holdings_stay_well_formed short_session "BTC/USDT" "Bitcoin"
                SELL LIMIT (Some 31000)) as (H1 & _).
    + repeat constructor; vm_compute; discriminate.
    + apply H1. vm_compute. discriminate.
  - destruct (holdings_stay_well_formed astock_holding_session "600000" "SPDB"
                SELL LIMIT (Some 9)) as (_ & H2 & _).
    + repeat constructor; vm_compute; discriminate.
    + apply H2.
Defined.
